(** * Yambo.Dice: the dice panel of YamboClient

    A shallow embedding of [YamboClient/public/js/app/classes/yambo.dice.js]
    (filtering of held dice, the roll join, die values, counts and the
    combination predicates) together with the properties of these functions
    that the design document of the dice subsystem states. *)

From Stdlib Require Import ZArith String Ascii List Bool Lia Permutation
  Sorted PeanoNat DecimalString.
From Stdlib Require Decimal DecimalPos.
Import ListNotations.

Local Open Scope Z_scope.

(** ** The fragment of JavaScript the dice panel relies on *)

Module JS.

(** Dynamically typed values.  Numbers that the panel handles are results
    of [parseInt] and loop counters, hence integers or [NaN]; they are
    idealised as unbounded integers (a double is exact below 2^53, and
    [-0] is identified with [0], both being falsy). *)
Inductive value : Type :=
| Undefined
| Bool (b : bool)
| NaN
| Num (z : Z)
| Str (s : string).

Inductive type : Type := TUndefined | TBoolean | TNumber | TString.

Definition typeof (v : value) : type :=
  match v with
  | Undefined => TUndefined
  | Bool _ => TBoolean
  | NaN | Num _ => TNumber
  | Str _ => TString
  end.

(** ToBoolean. *)
Definition truthy (v : value) : bool :=
  match v with
  | Undefined => false
  | Bool b => b
  | NaN => false
  | Num z => negb (z =? 0)
  | Str s => negb (String.eqb s EmptyString)
  end.

(** [a || b] and [a && b] return one of their operands. *)
Definition or (a b : value) : value := if truthy a then a else b.
Definition and (a b : value) : value := if truthy a then b else a.

(** [a === b]. *)
Definition strict_eq (a b : value) : bool :=
  match a, b with
  | Undefined, Undefined => true
  | Bool x, Bool y => Bool.eqb x y
  | Num x, Num y => x =? y
  | Str x, Str y => String.eqb x y
  | _, _ => false
  end.

Definition strict_neq (a b : value) : bool := negb (strict_eq a b).

(** [Number.MAX_SAFE_INTEGER]: up to it, in absolute value, every integer
    is a double and sums and numerals of integers are exact. *)
Definition MAX_SAFE_INTEGER : Z := 2 ^ 53 - 1.

Definition safe (z : Z) : Prop := Z.abs z <= MAX_SAFE_INTEGER.

(** *** [parseInt(string, 10)]

    Strings are sequences of 8-bit characters; the white space of
    [parseInt] is then TAB, LF, VT, FF, CR, SP and NBSP.  The number read
    is kept as the integer the digits denote: this is the number
    [parseInt] returns as long as it is at most [MAX_SAFE_INTEGER] in
    absolute value (beyond, a double rounds it); what is stated of larger
    numerals below does not depend on their value. *)
Definition isWhiteSpace (c : ascii) : bool :=
  let n := nat_of_ascii c in
  (Nat.eqb n 9 || Nat.eqb n 10 || Nat.eqb n 11 || Nat.eqb n 12
   || Nat.eqb n 13 || Nat.eqb n 32 || Nat.eqb n 160)%bool.

Definition digit (c : ascii) : option Z :=
  let n := nat_of_ascii c in
  if (Nat.leb 48 n && Nat.leb n 57)%bool then Some (Z.of_nat n - 48)
  else None.

Fixpoint trimStart (s : string) : string :=
  match s with
  | String c s' => if isWhiteSpace c then trimStart s' else s
  | EmptyString => s
  end.

(** Reads the longest prefix of decimal digits; [acc] is [None] as long
    as no digit has been read. *)
Fixpoint digits (s : string) (acc : option Z) : option Z :=
  match s with
  | String c s' =>
      match digit c with
      | Some k =>
          digits s' (Some (10 * match acc with Some a => a | None => 0 end + k))
      | None => acc
      end
  | EmptyString => acc
  end.

Definition parseDecimal (s : string) : value :=
  let t := trimStart s in
  let (sign, body) :=
    match t with
    | String "-" r => (-1, r)
    | String "+" r => (1, r)
    | _ => (1, t)
    end in
  match digits body None with
  | Some m => Num (sign * m)
  | None => NaN
  end.

(** [parseInt] first converts its argument with ToString: ["undefined"],
    ["true"], ["false"] and ["NaN"] hold no leading digit. *)
Definition parseInt (v : value) : value :=
  match v with
  | Str s => parseDecimal s
  | Num z => Num z
  | Undefined | Bool _ | NaN => NaN
  end.

(** [$.inArray(x, arr)] on an array of numbers: the first index holding
    [x], or [-1]. *)
Fixpoint inArray_from (x : Z) (arr : list Z) (i : Z) : Z :=
  match arr with
  | [] => -1
  | y :: arr' => if y =? x then i else inArray_from x arr' (i + 1)
  end.

Definition inArray (x : Z) (arr : list Z) : Z := inArray_from x arr 0.

(** *** [a + b]

    ToString, with the decimal numeral for a number (what JavaScript
    writes for an integer below 10^21 in absolute value), and the addition
    operator: concatenation as soon as one operand is a string, addition
    of the operands converted to numbers otherwise.  The sum is the sum of
    integers, which is the sum of doubles as long as it is at most
    [MAX_SAFE_INTEGER] in absolute value: the statements on sums below are
    made within that range. *)
Definition toString (v : value) : string :=
  match v with
  | Undefined => "undefined"
  | Bool true => "true"
  | Bool false => "false"
  | NaN => "NaN"
  | Num z => NilZero.string_of_int (Z.to_int z)
  | Str s => s
  end.

(** ToNumber on the values that are not strings; [None] stands for
    [NaN]. *)
Definition toNumber (v : value) : option Z :=
  match v with
  | Bool b => Some (if b then 1 else 0)
  | Num z => Some z
  | Undefined | NaN | Str _ => None
  end.

Definition add (a b : value) : value :=
  match a, b with
  | Str _, _ | _, Str _ => Str (toString a ++ toString b)
  | _, _ =>
      match toNumber a, toNumber b with
      | Some x, Some y => Num (x + y)
      | _, _ => NaN
      end
  end.

End JS.

(** ** The dice of the panel and jQuery collections over them *)

(** One [<input>] of the panel: its [value] property and whether it carries
    the class [settings.classes.checked]. *)
Record el : Type := mkEl { value : string; checked : bool }.

(** The inputs matched by [selectors.dice], in document order.  An element
    is identified by its position; a jQuery collection is a list of such
    positions, so that collections obtained by filtering alias the
    elements of the panel. *)
Definition panel : Type := list el.
Definition jq : Type := list nat.

Module jQuery.

(** [.eq(index)]: a negative index counts from the end. *)
Definition eq (c : jq) (index : Z) : jq :=
  let len := Z.of_nat (length c) in
  let j := index + (if index <? 0 then len else 0) in
  if ((0 <=? j) && (j <? len))%bool then
    match nth_error c (Z.to_nat j) with
    | Some n => [n]
    | None => []
    end
  else [].

(** [.val()]: the value of the first element, [undefined] on the empty
    collection.  (jQuery drops carriage returns from the string; the
    value of a single-line input holds none.) *)
Definition val (p : panel) (c : jq) : JS.value :=
  match c with
  | [] => JS.Undefined
  | n :: _ =>
      match nth_error p n with
      | Some e => JS.Str (value e)
      | None => JS.Undefined
      end
  end.

(** [.hasClass(classes.checked)]: some element carries the class. *)
Definition hasClass (p : panel) (c : jq) : bool :=
  existsb (fun n => match nth_error p n with
                    | Some e => checked e
                    | None => false
                    end) c.

Fixpoint update (p : panel) (n : nat) (f : el -> el) : panel :=
  match p, n with
  | [], _ => []
  | e :: p', O => f e :: p'
  | e :: p', S n' => e :: update p' n' f
  end.

(** [.toggleClass(classes.checked, state)] and
    [.toggleClass(classes.checked)]. *)
Definition toggleClass_to (p : panel) (c : jq) (state : bool) : panel :=
  fold_left (fun q n => update q n (fun e => mkEl (value e) state)) c p.

Definition toggleClass (p : panel) (c : jq) : panel :=
  fold_left (fun q n => update q n (fun e => mkEl (value e) (negb (checked e)))) c p.

(** [$.grep(elems, callback)]. *)
Fixpoint grep (elems : jq) (callback : nat -> bool) : jq :=
  match elems with
  | [] => []
  | n :: elems' =>
      if callback n then n :: grep elems' callback else grep elems' callback
  end.

End jQuery.

(** ** [ns.Dice.prototype] *)

Module Dice.

(** [this.dice], cached by [cache]: every input of the panel. *)
Definition dice (p : panel) : jq := seq 0 (length p).

(** *** Selection *)

(** [filter(isChecked)]: the dice for which
    [$(el).hasClass(classes.checked) !== isChecked].  The argument thus
    names the dice to leave out, which is how [rollDice] and [diceClick]
    use it (the JSDoc of [filter] words it the other way round); any
    argument that is not a boolean keeps every die. *)
Definition filter (p : panel) (isChecked : JS.value) : jq :=
  jQuery.grep (dice p)
    (fun n => JS.strict_neq (JS.Bool (jQuery.hasClass p [n])) isChecked).

(** [getDieCount(value, isChecked)]: the loop over [elements] collecting
    those whose [value] property is strictly equal to [v]. *)
Fixpoint getDieCount_loop (p : panel) (elements : jq) (v : JS.value)
    (fuel i : nat) (arr : jq) : jq :=
  match fuel with
  | O => arr
  | S fuel' =>
      let arr' :=
        match nth_error elements i with
        | Some n =>
            match nth_error p n with
            | Some e =>
                if JS.strict_eq (JS.Str (value e)) v then arr ++ [n] else arr
            | None => arr
            end
        | None => arr
        end in
      getDieCount_loop p elements v fuel' (S i) arr'
  end.

Definition getDieCount (p : panel) (v isChecked : JS.value) : jq :=
  let elements := filter p isChecked in
  let len := length elements in
  getDieCount_loop p elements v len 0%nat [].

(** The part of a click event that [diceClick] reads. *)
Record event : Type := mkEvent {
  currentTarget : nat;
  ctrlKey : bool;
  metaKey : bool
}.

(** [diceClick(ev)]; the sound played is left to the audio panel. *)
Definition diceClick (p : panel) (ev : event) : panel :=
  let el := [currentTarget ev] in
  let isChecked := jQuery.hasClass p el in
  if (ctrlKey ev || metaKey ev)%bool then
    let el := getDieCount p (jQuery.val p el) (JS.Bool (negb isChecked)) in
    jQuery.toggleClass_to p el (negb isChecked)
  else
    jQuery.toggleClass p el.

(** *** Rolling *)

(** What the callbacks handed to [$.fn.roll] share: the array [result]
    and, as a ghost field, the log of the calls of [callback], each entry
    being [result.length] at the time of the call. *)
Record join : Type := mkJoin { result : list JS.value; fired : list nat }.

(** The callback of one die:
    [result.push(value);
     if (result.length === len && typeof callback === 'function') callback();] *)
Definition on_value (len : nat) (callback_is_function : bool)
    (st : join) (v : JS.value) : join :=
  let result' := result st ++ [v] in
  if (Nat.eqb (length result') len && callback_is_function)%bool then
    mkJoin result' (fired st ++ [length result'])
  else
    mkJoin result' (fired st).

(** The loop of [rollDice]: [dice.eq(i).roll(options, ...)] for
    [i < len]; [pending] lists the collections whose roll was asked. *)
Fixpoint rollDice_loop (targets : jq) (fuel : nat) (i : Z)
    (pending : list jq) : list jq :=
  match fuel with
  | O => pending
  | S fuel' =>
      rollDice_loop targets fuel' (i + 1) (pending ++ [jQuery.eq targets i])
  end.

Record rolling : Type := mkRolling {
  len : nat;
  pending : list jq;
  state : join
}.

(** [rollDice(options, callback)] up to its return: the rolls are
    pending, no value has come back yet. *)
Definition rollDice (p : panel) : rolling :=
  let targets := filter p (JS.Bool true) in
  let len := length targets in
  mkRolling len (rollDice_loop targets len 0 []) (mkJoin [] []).

(** The roll plug-in answers the pending rolls in some order: each
    arrival names the collection that was rolled and the value passed to
    its callback. *)
Definition deliver (len : nat) (callback_is_function : bool)
    (arrivals : list (jq * JS.value)) (st : join) : join :=
  fold_left (fun st a => on_value len callback_is_function st (snd a))
    arrivals st.

(** *** Values and counts *)

(** [arr[i] = x], which extends the array when [i] is past its end. *)
Definition set_index (arr : list JS.value) (i : nat) (x : JS.value)
    : list JS.value :=
  firstn i arr ++ repeat JS.Undefined (i - length arr) ++ [x]
    ++ skipn (S i) arr.

Definition getDieValue (p : panel) (index : Z) : JS.value :=
  JS.or (JS.parseInt (jQuery.val p (jQuery.eq (dice p) index))) (JS.Num 0).

Fixpoint getDiceValues_loop (p : panel) (fuel : nat) (i : Z)
    (arr : list JS.value) : list JS.value :=
  match fuel with
  | O => arr
  | S fuel' =>
      getDiceValues_loop p fuel' (i + 1)
        (set_index arr (Z.to_nat i) (getDieValue p i))
  end.

(** [for (; i < 5; i += 1)] from [i = 0]. *)
Definition getDiceValues (p : panel) : list JS.value :=
  getDiceValues_loop p 5 0 [].

(** [for (; len--;) { if (arr[len] === value) count++; }] *)
Fixpoint getDiceCount_loop (arr : list JS.value) (v : JS.value)
    (len : nat) (count : Z) : Z :=
  match len with
  | O => count
  | S len' =>
      getDiceCount_loop arr v len'
        (if JS.strict_eq (nth len' arr JS.Undefined) v
         then count + 1 else count)
  end.

Definition getDiceCount (p : panel) (v : JS.value) : Z :=
  let arr := getDiceValues p in
  getDiceCount_loop arr v (length arr) 0.

Fixpoint getDiceCounts_loop (p : panel) (fuel : nat) (i : Z)
    (arr : list Z) : list Z :=
  match fuel with
  | O => arr
  | S fuel' =>
      getDiceCounts_loop p fuel' (i + 1) (arr ++ [getDiceCount p (JS.Num i)])
  end.

(** [for (var i = 1; i <= 6; i++)]. *)
Definition getDiceCounts (p : panel) : list Z :=
  getDiceCounts_loop p 6 1 [].

(** *** Combinations *)

Definition isThreeOfaKind (p : panel) : JS.value :=
  JS.Bool (JS.inArray 3 (getDiceCounts p) >? -1).

Definition isFourOfaKind (p : panel) : JS.value :=
  JS.Bool (JS.inArray 4 (getDiceCounts p) >? -1).

Definition isFullhouse (p : panel) : JS.value :=
  let arr := getDiceCounts p in
  JS.or
    (JS.and (JS.Bool (JS.inArray 3 arr >? -1))
            (JS.Bool (JS.inArray 2 arr >? -1)))
    (JS.Bool (JS.inArray 5 arr >? -1)).

Definition isStreet (p : panel) : JS.value :=
  JS.and
    (JS.and
       (JS.and
          (JS.and (JS.Num (getDiceCount p (JS.Num 2)))
                  (JS.Num (getDiceCount p (JS.Num 3))))
          (JS.Num (getDiceCount p (JS.Num 4))))
       (JS.Num (getDiceCount p (JS.Num 5))))
    (JS.or (JS.Num (getDiceCount p (JS.Num 1)))
           (JS.Num (getDiceCount p (JS.Num 6)))).

Definition isYam (p : panel) : JS.value :=
  JS.Bool (JS.inArray 5 (getDiceCounts p) >? -1).

(** *** The total *)

(** [for (; len--;) { total += arr[len]; }] *)
Fixpoint getDiceTotal_loop (arr : list JS.value) (len : nat)
    (total : JS.value) : JS.value :=
  match len with
  | O => total
  | S len' => getDiceTotal_loop arr len' (JS.add total (nth len' arr JS.Undefined))
  end.

Definition getDiceTotal (p : panel) : JS.value :=
  let arr := getDiceValues p in
  getDiceTotal_loop arr (length arr) (JS.Num 0).

(** *** The roll button *)

(** What the handlers change of [this.button]: its [disabled] property,
    the class [classes.active] and whether the one-shot handler of
    [events.buttonLeave] is bound. *)
Record button : Type := mkButton {
  disabled : bool;
  active : bool;
  leave_bound : bool
}.

(** [buttonHold(ev)], given what [log.isValidTurn()] answers: the dice that
    are not checked start juggling, [rollDice] being called without a
    callback.  The sound is left to the audio panel. *)
Definition buttonHold (isValidTurn : bool) (p : panel) (b : button)
    : button * option rolling :=
  if isValidTurn then
    (mkButton (disabled b) true true, Some (rollDice p))
  else (b, None).

(** [buttonRelease()], given what [log.handleTurn()] answers: the button
    is disabled and [rollDice] is called with a callback. *)
Definition buttonRelease (handleTurn : bool) (p : panel) (b : button)
    : button * option rolling :=
  let b := mkButton (disabled b) (active b) false in
  if handleTurn then
    (mkButton true (active b) (leave_bound b), Some (rollDice p))
  else (b, None).

(** What the callback of [buttonRelease] does to the button:
    [self.button.prop({ disabled: false }).removeClass(classes.active)]
    (the score sheet, the log and the sounds are other panels'). *)
Definition rolled (b : button) : button :=
  mkButton false false (leave_bound b).

(** The button once the roll plug-in has delivered [arrivals] to the
    callbacks of a release: [rolled] runs at each call of the callback. *)
Definition button_after (r : rolling) (arrivals : list (jq * JS.value))
    (b : button) : button :=
  fold_left (fun b _ => rolled b)
    (fired (deliver (len r) true arrivals (state r))) b.

End Dice.

(** ** Notions used in the statements *)

(** The integer a die shows according to [getDieValue], and the five
    integers [getDiceValues] collects. *)
Definition face (p : panel) (index : Z) : Z :=
  match Dice.getDieValue p index with
  | JS.Num z => z
  | _ => 0
  end.

Definition faces (p : panel) : list Z := map (face p) [0; 1; 2; 3; 4].

Definition unNum (v : JS.value) : Z :=
  match v with JS.Num z => z | _ => 0 end.

(** How often [x] occurs in a list of integers. *)
Fixpoint occ (x : Z) (zs : list Z) : Z :=
  match zs with
  | [] => 0
  | z :: zs' => (if z =? x then 1 else 0) + occ x zs'
  end.

(** Sum of an array of numbers. *)
Definition sum (arr : list Z) : Z := fold_right Z.add 0 arr.

(** Every die value lies in [0..6], [0] standing for a die not yet rolled. *)
Definition values_in_range (p : panel) : bool :=
  forallb (fun v => match v with
                    | JS.Num z => (0 <=? z) && (z <=? 6)
                    | _ => false
                    end) (Dice.getDiceValues p).

(** The street condition in the words of the design document:
    [countOf(2)>0 AND countOf(3)>0 AND countOf(4)>0 AND countOf(5)>0 AND
    (countOf(1)>0 OR countOf(6)>0)]. *)
Definition street_condition (p : panel) : Prop :=
  let countOf face := Dice.getDiceCount p (JS.Num face) in
  0 < countOf 2 /\ 0 < countOf 3 /\ 0 < countOf 4 /\ 0 < countOf 5
  /\ (0 < countOf 1 \/ 0 < countOf 6).

(** The five values are, as a multiset, those of [run]. *)
Definition is_run (p : panel) (run : list Z) : Prop :=
  Permutation (Dice.getDiceValues p) (map JS.Num run).

(** Die [n] exists and its [value] property is strictly equal to [v]. *)
Definition has_value (p : panel) (v : JS.value) (n : nat) : bool :=
  match nth_error p n with
  | Some e => JS.strict_eq (JS.Str (value e)) v
  | None => false
  end.




(** What [this.dice.eq(index).val()] yields: the stored string, or
    [undefined] when the panel has no die at [index]. *)
Definition stored (p : panel) (index : Z) : JS.value :=
  jQuery.val p (jQuery.eq (Dice.dice p) index).

(** ** Sample panels *)

Definition die (s : string) (c : bool) : el := mkEl s c.

Definition panel_of (vs : list string) : panel := map (fun s => die s false) vs.

Definition p12345 := panel_of ["1"; "2"; "3"; "4"; "5"]%string.
Definition p66666 := panel_of ["6"; "6"; "6"; "6"; "6"]%string.
Definition p22255 := panel_of ["2"; "2"; "2"; "5"; "5"]%string.
Definition p22225 := panel_of ["2"; "2"; "2"; "2"; "5"]%string.
Definition p11226 := panel_of ["1"; "1"; "2"; "2"; "6"]%string.

(** No die has been rolled yet. *)
Definition p00000 := panel_of ["0"; "0"; "0"; "0"; "0"]%string.

Definition p_all_held : panel :=
  [die "3" true; die "3" true; die "4" true; die "1" true; die "6" true].

Definition p_two_held : panel :=
  [die "3" true; die "5" false; die "4" true; die "1" false; die "6" false].

(** A value that does not parse, an empty one, one with a unit, and two
    dice missing. *)
Definition p_damaged : panel := [die "x" false; die "" true; die " 4px" false].


(** The scenarios of the design document that the source agrees with. *)
Example scenario_12345 :
  JS.truthy (Dice.isStreet p12345) = true
  /\ Dice.isFullhouse p12345 = JS.Bool false
  /\ Dice.isYam p12345 = JS.Bool false.
Proof. repeat split. Qed.

Example scenario_22255 :
  Dice.isThreeOfaKind p22255 = JS.Bool true
  /\ Dice.isFullhouse p22255 = JS.Bool true
  /\ Dice.isFourOfaKind p22255 = JS.Bool false.
Proof. repeat split. Qed.

Example scenario_11226 :
  Dice.isThreeOfaKind p11226 = JS.Bool false
  /\ Dice.isFourOfaKind p11226 = JS.Bool false
  /\ Dice.isFullhouse p11226 = JS.Bool false
  /\ JS.truthy (Dice.isStreet p11226) = false
  /\ Dice.isYam p11226 = JS.Bool false.
Proof. repeat split. Qed.

(** ** Values are numbers *)

Lemma parseInt_cases (v : JS.value) :
  JS.parseInt v = JS.NaN \/ exists z, JS.parseInt v = JS.Num z.
Proof.
  destruct v as [| b | | z | s]; simpl; eauto.
  unfold JS.parseDecimal.
  destruct (JS.trimStart s) as [| c r].
  - simpl. auto.
  - destruct (match String c r with
              | String "-" r0 => (-1, r0)
              | String "+" r0 => (1, r0)
              | _ => (1, String c r)
              end) as [sign body].
    destruct (JS.digits body None); eauto.
Qed.

Lemma getDieValue_face (p : panel) (index : Z) :
  Dice.getDieValue p index = JS.Num (face p index).
Proof.
  unfold face, Dice.getDieValue, JS.or.
  destruct (parseInt_cases (jQuery.val p (jQuery.eq (Dice.dice p) index)))
    as [-> | [z ->]]; simpl; [reflexivity |].
  destruct (z =? 0); reflexivity.
Qed.

Lemma getDiceValues_map (p : panel) :
  Dice.getDiceValues p = map (Dice.getDieValue p) [0; 1; 2; 3; 4].
Proof. reflexivity. Qed.

Lemma getDiceValues_faces (p : panel) :
  Dice.getDiceValues p = map JS.Num (faces p).
Proof.
  rewrite getDiceValues_map. unfold faces. rewrite map_map.
  apply map_ext. intros i. apply getDieValue_face.
Qed.

(** ** Counting *)

Lemma occ_app (x : Z) (l1 l2 : list Z) : occ x (l1 ++ l2) = occ x l1 + occ x l2.
Proof. induction l1 as [| z l1 IH]; simpl; [reflexivity | rewrite IH; lia]. Qed.

Lemma occ_nonneg (x : Z) (zs : list Z) : 0 <= occ x zs.
Proof. induction zs as [| z zs IH]; simpl; [lia | destruct (z =? x); lia]. Qed.

Lemma occ_pos_In (x : Z) (zs : list Z) : 0 < occ x zs <-> In x zs.
Proof.
  induction zs as [| z zs IH]; simpl.
  - split; [lia | tauto].
  - destruct (Z.eqb_spec z x) as [-> | Hne].
    + split; [auto | intros _; pose proof (occ_nonneg x zs); lia].
    + rewrite Z.add_0_l, IH. split; [auto | intros [H | H]; [contradiction | exact H]].
Qed.

Lemma getDiceCount_loop_firstn (zs : list Z) (x : Z) (len : nat) :
  forall count, (len <= length zs)%nat ->
    Dice.getDiceCount_loop (map JS.Num zs) (JS.Num x) len count
    = count + occ x (firstn len zs).
Proof.
  induction len as [| len IH]; intros count Hlen; simpl Dice.getDiceCount_loop.
  - simpl. lia.
  - rewrite IH by lia.
    assert (Hnth : exists z, nth_error zs len = Some z).
    { destruct (nth_error zs len) eqn:E; eauto.
      apply nth_error_None in E. lia. }
    destruct Hnth as [z Hz].
    assert (Hsplit : firstn (S len) zs = firstn len zs ++ [z]).
    { clear - Hz. revert zs Hz. induction len as [| len IH]; intros [| a zs] Hz;
        simpl in *; try discriminate.
      - injection Hz as ->. reflexivity.
      - rewrite (IH zs Hz). reflexivity. }
    rewrite Hsplit, occ_app. simpl occ.
    assert (Hn : nth len (map JS.Num zs) JS.Undefined = JS.Num z).
    { apply nth_error_nth. rewrite nth_error_map, Hz. reflexivity. }
    rewrite Hn. simpl JS.strict_eq. destruct (z =? x); lia.
Qed.

Lemma getDiceCount_occ (p : panel) (x : Z) :
  Dice.getDiceCount p (JS.Num x) = occ x (faces p).
Proof.
  unfold Dice.getDiceCount. rewrite getDiceValues_faces, length_map.
  rewrite getDiceCount_loop_firstn by lia.
  rewrite firstn_all. lia.
Qed.

Lemma getDiceCounts_occ (p : panel) :
  Dice.getDiceCounts p = map (fun x => occ x (faces p)) [1; 2; 3; 4; 5; 6].
Proof.
  unfold Dice.getDiceCounts. simpl.
  rewrite !getDiceCount_occ. reflexivity.
Qed.

Lemma faces_length (p : panel) : length (faces p) = 5%nat.
Proof. reflexivity. Qed.

Lemma occ_1_6_le (zs : list Z) :
  occ 1 zs + occ 2 zs + occ 3 zs + occ 4 zs + occ 5 zs + occ 6 zs
  <= Z.of_nat (length zs).
Proof.
  induction zs as [| z zs IH]; [simpl; lia |].
  cbn [occ length].
  destruct (Z.eqb_spec z 1), (Z.eqb_spec z 2), (Z.eqb_spec z 3),
    (Z.eqb_spec z 4), (Z.eqb_spec z 5), (Z.eqb_spec z 6); lia.
Qed.

Lemma occ_0_6_total (zs : list Z) :
  (forall z, In z zs -> 0 <= z <= 6) ->
  occ 0 zs + occ 1 zs + occ 2 zs + occ 3 zs + occ 4 zs + occ 5 zs + occ 6 zs
  = Z.of_nat (length zs).
Proof.
  induction zs as [| z zs IH]; intros Hr; [reflexivity |].
  assert (Hz : 0 <= z <= 6) by (apply Hr; left; reflexivity).
  assert (IH' := IH (fun y Hy => Hr y (or_intror Hy))).
  cbn [occ length].
  destruct (Z.eqb_spec z 0), (Z.eqb_spec z 1), (Z.eqb_spec z 2),
    (Z.eqb_spec z 3), (Z.eqb_spec z 4), (Z.eqb_spec z 5), (Z.eqb_spec z 6); lia.
Qed.

Lemma inArray_from_In (x : Z) (arr : list Z) :
  forall i, 0 <= i -> (JS.inArray_from x arr i >? -1) = true <-> In x arr.
Proof.
  induction arr as [| y arr IH]; intros i Hi; simpl.
  - split; [discriminate | tauto].
  - destruct (Z.eqb_spec y x) as [-> | Hne].
    + split; [auto | intros _; apply Z.gtb_lt; lia].
    + rewrite IH by lia. split; [auto | intros [H | H]; [contradiction | exact H]].
Qed.

Lemma inArray_In (x : Z) (arr : list Z) :
  (JS.inArray x arr >? -1) = true <-> In x arr.
Proof. apply inArray_from_In. lia. Qed.

(** ** Counts and the count predicates *)

Lemma values_in_range_faces (p : panel) :
  values_in_range p = true -> forall z, In z (faces p) -> 0 <= z <= 6.
Proof.
  unfold values_in_range. rewrite getDiceValues_faces, forallb_forall.
  intros H z Hz. specialize (H (JS.Num z) (in_map JS.Num _ _ Hz)).
  simpl in H. apply andb_prop in H as [H1 H2]. lia.
Qed.

Lemma sum_getDiceCounts (p : panel) :
  sum (Dice.getDiceCounts p)
  = occ 1 (faces p) + occ 2 (faces p) + occ 3 (faces p)
    + occ 4 (faces p) + occ 5 (faces p) + occ 6 (faces p).
Proof. rewrite getDiceCounts_occ. cbn [map sum fold_right]. lia. Qed.

(** Two different numbers found in the counts add up to at most five. *)
Lemma two_counts_bound (p : panel) (a b : Z) :
  a <> b -> In a (Dice.getDiceCounts p) -> In b (Dice.getDiceCounts p) ->
  a + b <= 5.
Proof.
  intros Hab Ha Hb.
  pose proof (occ_1_6_le (faces p)) as Hle. rewrite faces_length in Hle.
  pose proof (occ_nonneg 1 (faces p)). pose proof (occ_nonneg 2 (faces p)).
  pose proof (occ_nonneg 3 (faces p)). pose proof (occ_nonneg 4 (faces p)).
  pose proof (occ_nonneg 5 (faces p)). pose proof (occ_nonneg 6 (faces p)).
  rewrite getDiceCounts_occ in Ha, Hb. cbn [map In] in Ha, Hb.
  repeat match goal with H : _ \/ _ |- _ => destruct H end; lia.
Qed.

Lemma exclusive_counts (p : panel) (a b : Z) :
  a <> b -> 5 < a + b ->
  (JS.inArray a (Dice.getDiceCounts p) >? -1) = true ->
  (JS.inArray b (Dice.getDiceCounts p) >? -1) = false.
Proof.
  intros Hab Hsum Ha.
  destruct (JS.inArray b (Dice.getDiceCounts p) >? -1) eqn:Hb; [| reflexivity].
  apply inArray_In in Ha, Hb.
  pose proof (two_counts_bound p a b Hab Ha Hb). lia.
Qed.

(** C2, as stated, fails: five dice that were never rolled all show [0],
    a value within [0..6], and no face from 1 to 6 is counted, so the six
    counts sum to 0. *)
Lemma C2_counts_sum_counterexample :
  values_in_range p00000 = true /\ sum (Dice.getDiceCounts p00000) <> 5.
Proof. split; [reflexivity | vm_compute; discriminate]. Qed.

(** C2 (amended): for every dice state whose five values lie in [0..6],
    the six entries of [getDiceCounts()] sum to 5 minus the number of dice
    showing 0 (not rolled yet); they sum to exactly 5 once no die shows 0. *)
Theorem C2_counts_sum (p : panel) :
  values_in_range p = true ->
  sum (Dice.getDiceCounts p) = 5 - Dice.getDiceCount p (JS.Num 0).
Proof.
  intros Hr.
  pose proof (occ_0_6_total (faces p) (values_in_range_faces p Hr)) as Htot.
  rewrite faces_length in Htot.
  rewrite sum_getDiceCounts, getDiceCount_occ. lia.
Qed.

Lemma C2_counts_sum_witness :
  values_in_range p22255 = true
  /\ sum (Dice.getDiceCounts p22255) = 5 - Dice.getDiceCount p22255 (JS.Num 0).
Proof. split; [reflexivity | apply (C2_counts_sum p22255); reflexivity]. Defined.

(** C1, as stated, fails at both links: five sixes are a yam but no count
    equals 4, and four twos are a four-of-a-kind but no count equals 3. *)
Lemma C1_monotone_counterexample :
  (Dice.isYam p66666 = JS.Bool true
   /\ Dice.isFourOfaKind p66666 = JS.Bool false)
  /\ (Dice.isFourOfaKind p22225 = JS.Bool true
      /\ Dice.isThreeOfaKind p22225 = JS.Bool false).
Proof. repeat split. Qed.

(** C1 (amended): [isYam], [isFourOfaKind] and [isThreeOfaKind] look for a
    face shown by exactly 5, exactly 4 and exactly 3 dice, so that for every
    dice state they exclude one another: when [isYam()] is true both
    [isFourOfaKind()] and [isThreeOfaKind()] are false, and when
    [isFourOfaKind()] is true [isThreeOfaKind()] is false. *)
Theorem C1_exclusive (p : panel) :
  (Dice.isYam p = JS.Bool true ->
   Dice.isFourOfaKind p = JS.Bool false
   /\ Dice.isThreeOfaKind p = JS.Bool false)
  /\ (Dice.isFourOfaKind p = JS.Bool true ->
      Dice.isThreeOfaKind p = JS.Bool false).
Proof.
  unfold Dice.isYam, Dice.isFourOfaKind, Dice.isThreeOfaKind.
  split.
  - intros H. injection H as H.
    rewrite (exclusive_counts p 5 4), (exclusive_counts p 5 3); auto; lia.
  - intros H. injection H as H.
    rewrite (exclusive_counts p 4 3); auto; lia.
Qed.

Lemma C1_exclusive_witness :
  Dice.isYam p66666 = JS.Bool true
  /\ Dice.isFourOfaKind p66666 = JS.Bool false
  /\ Dice.isThreeOfaKind p66666 = JS.Bool false.
Proof. split; [reflexivity | apply (proj1 (C1_exclusive p66666)); reflexivity]. Defined.

(** C8: for every dice state, when [isYam()] is true so is [isFullhouse()],
    through the disjunct of [isFullhouse] that looks for a count of 5. *)
Theorem C8_yam_fullhouse (p : panel) :
  Dice.isYam p = JS.Bool true -> Dice.isFullhouse p = JS.Bool true.
Proof.
  unfold Dice.isYam, Dice.isFullhouse. intros H. injection H as ->.
  destruct (JS.inArray 3 (Dice.getDiceCounts p) >? -1),
    (JS.inArray 2 (Dice.getDiceCounts p) >? -1); reflexivity.
Qed.

Lemma C8_yam_fullhouse_witness :
  Dice.isYam p66666 = JS.Bool true /\ Dice.isFullhouse p66666 = JS.Bool true.
Proof. split; [reflexivity | apply (C8_yam_fullhouse p66666); reflexivity]. Defined.

(** ** The street *)

Lemma and_num (a b : Z) :
  JS.and (JS.Num a) (JS.Num b) = JS.Num (if a =? 0 then 0 else b).
Proof.
  unfold JS.and. simpl. destruct (Z.eqb_spec a 0) as [-> | _]; reflexivity.
Qed.

Lemma or_num (a b : Z) :
  JS.or (JS.Num a) (JS.Num b) = JS.Num (if a =? 0 then b else a).
Proof. unfold JS.or. simpl. destruct (a =? 0); reflexivity. Qed.

(** The number [isStreet] returns, read off its chain of [&&] and [||]. *)
Lemma isStreet_number (p : panel) :
  exists n, Dice.isStreet p = JS.Num n /\ 0 <= n /\ (0 < n <-> street_condition p).
Proof.
  unfold Dice.isStreet, street_condition. cbv zeta.
  rewrite !getDiceCount_occ, !and_num, or_num, and_num.
  pose proof (occ_nonneg 1 (faces p)). pose proof (occ_nonneg 2 (faces p)).
  pose proof (occ_nonneg 3 (faces p)). pose proof (occ_nonneg 4 (faces p)).
  pose proof (occ_nonneg 5 (faces p)). pose proof (occ_nonneg 6 (faces p)).
  eexists. split; [reflexivity |].
  destruct (Z.eqb_spec (occ 2 (faces p)) 0);
    [cbn [Z.eqb]; lia |].
  destruct (Z.eqb_spec (occ 3 (faces p)) 0);
    [cbn [Z.eqb]; lia |].
  destruct (Z.eqb_spec (occ 4 (faces p)) 0);
    [cbn [Z.eqb]; lia |].
  destruct (Z.eqb_spec (occ 5 (faces p)) 0);
    [cbn [Z.eqb]; lia |].
  destruct (Z.eqb_spec (occ 1 (faces p)) 0); lia.
Qed.

Lemma is_run_faces (p : panel) (run : list Z) :
  is_run p run <-> Permutation (faces p) run.
Proof.
  unfold is_run. rewrite getDiceValues_faces. split; intros H.
  - apply (Permutation_map unNum) in H. rewrite !map_map in H.
    simpl in H. rewrite !map_id in H. exact H.
  - apply Permutation_map. exact H.
Qed.

Lemma run_of_members (zs run : list Z) :
  length zs = 5%nat -> length run = 5%nat -> NoDup run ->
  (forall x, In x run -> 0 < occ x zs) -> Permutation zs run.
Proof.
  intros Hzs Hrun Hnd Hin. symmetry.
  apply NoDup_Permutation_bis; [exact Hnd | lia |].
  intros x Hx. apply occ_pos_In, Hin, Hx.
Qed.

Lemma NoDup_run (lo : Z) : NoDup [lo; lo + 1; lo + 2; lo + 3; lo + 4].
Proof.
  repeat constructor; simpl; lia.
Qed.

Lemma street_condition_runs (p : panel) :
  street_condition p <-> is_run p [1; 2; 3; 4; 5] \/ is_run p [2; 3; 4; 5; 6].
Proof.
  unfold street_condition. cbv zeta. rewrite !getDiceCount_occ, !is_run_faces.
  split.
  - intros (H2 & H3 & H4 & H5 & [H1 | H6]); [left | right];
      apply run_of_members;
      try reflexivity; try apply (NoDup_run 1); try apply (NoDup_run 2);
      simpl; intros x Hx;
      repeat (destruct Hx as [<- | Hx]; [assumption |]); contradiction.
  - intros [H | H]; symmetry in H;
      (assert (Hm : forall x, In x _ -> 0 < occ x (faces p))
         by (intros x Hx; apply occ_pos_In, (Permutation_in _ H), Hx)).
    + repeat split; try (apply Hm; simpl; tauto). left. apply Hm. simpl. tauto.
    + repeat split; try (apply Hm; simpl; tauto). right. apply Hm. simpl. tauto.
Qed.

(** C6: for every state of the five dice, [isStreet()] is truthy exactly
    when the five values are, as a multiset, [{1,2,3,4,5}] or
    [{2,3,4,5,6}]; and the condition on the counts, [countOf(2)>0 AND ...
    AND (countOf(1)>0 OR countOf(6)>0)], holds on these two value sets
    only. *)
Theorem C6_isStreet_runs (p : panel) :
  (JS.truthy (Dice.isStreet p) = true
   <-> is_run p [1; 2; 3; 4; 5] \/ is_run p [2; 3; 4; 5; 6])
  /\ (street_condition p
      <-> is_run p [1; 2; 3; 4; 5] \/ is_run p [2; 3; 4; 5; 6]).
Proof.
  split; [| apply street_condition_runs].
  rewrite <- street_condition_runs.
  destruct (isStreet_number p) as (n & -> & Hn & <-). simpl.
  destruct (Z.eqb_spec n 0); simpl; split; intros; try lia; discriminate.
Qed.

(** C10: for every dice state [isStreet()] returns a number and not a
    boolean: [0] when a face the street needs is absent, a positive count
    when the street condition holds; [isThreeOfaKind], [isFourOfaKind],
    [isFullhouse] and [isYam] return booleans. *)
Theorem C10_isStreet_returns_number (p : panel) :
  JS.typeof (Dice.isStreet p) = JS.TNumber
  /\ (exists n, Dice.isStreet p = JS.Num n
               /\ (street_condition p -> 0 < n)
               /\ (~ street_condition p -> n = 0))
  /\ JS.typeof (Dice.isThreeOfaKind p) = JS.TBoolean
  /\ JS.typeof (Dice.isFourOfaKind p) = JS.TBoolean
  /\ JS.typeof (Dice.isFullhouse p) = JS.TBoolean
  /\ JS.typeof (Dice.isYam p) = JS.TBoolean.
Proof.
  destruct (isStreet_number p) as (n & E & Hn & Hc).
  split; [rewrite E; reflexivity |].
  split; [exists n; rewrite <- Hc; repeat split; [exact E | tauto | lia] |].
  repeat split.
  unfold Dice.isFullhouse.
  destruct (JS.inArray 3 (Dice.getDiceCounts p) >? -1),
    (JS.inArray 2 (Dice.getDiceCounts p) >? -1); reflexivity.
Qed.

(** ** Selection *)

Section Selection.

Variable p : panel.

(** Whether die [n] carries the class, as [$(el).hasClass] reports it. *)
Lemma hasClass_single (n : nat) :
  jQuery.hasClass p [n]
  = match nth_error p n with Some e => checked e | None => false end.
Proof. unfold jQuery.hasClass. simpl. apply orb_false_r. Qed.

Lemma grep_filter (elems : jq) (f : nat -> bool) :
  jQuery.grep elems f = List.filter f elems.
Proof.
  induction elems as [| n elems IH]; simpl; [reflexivity |].
  rewrite IH. reflexivity.
Qed.

Lemma In_dice (n : nat) : In n (Dice.dice p) <-> (n < length p)%nat.
Proof. unfold Dice.dice. rewrite in_seq. lia. Qed.

Lemma In_filter (isChecked : bool) (n : nat) :
  In n (Dice.filter p (JS.Bool isChecked))
  <-> exists e, nth_error p n = Some e /\ checked e = negb isChecked.
Proof.
  unfold Dice.filter. rewrite grep_filter, filter_In, In_dice, hasClass_single.
  unfold JS.strict_neq. simpl. split.
  - intros [Hn H]. destruct (nth_error p n) as [e |] eqn:E.
    + exists e. split; [reflexivity |].
      destruct (checked e), isChecked; simpl in *; congruence.
    + apply nth_error_None in E. lia.
  - intros (e & E & H). split.
    + apply nth_error_Some. congruence.
    + rewrite E, H. destruct isChecked; reflexivity.
Qed.

End Selection.

Lemma sorted_seq (start len : nat) : StronglySorted lt (seq start len).
Proof.
  revert start. induction len as [| len IH]; intros start; simpl; constructor.
  - apply IH.
  - apply Forall_forall. intros x Hx. apply in_seq in Hx. lia.
Qed.

Lemma sorted_filter (f : nat -> bool) (l : list nat) :
  StronglySorted lt l -> StronglySorted lt (List.filter f l).
Proof.
  induction 1 as [| a l Hs IH Ha]; simpl; [constructor |].
  destruct (f a); [| exact IH].
  constructor; [exact IH |].
  rewrite Forall_forall in *. intros x Hx. apply filter_In in Hx. apply Ha, Hx.
Qed.

Lemma filter_sorted (p : panel) (isChecked : JS.value) :
  StronglySorted lt (Dice.filter p isChecked).
Proof.
  unfold Dice.filter. rewrite grep_filter. apply sorted_filter, sorted_seq.
Qed.

(** *** The dice [rollDice] targets *)

Lemma eq_nat (c : jq) (n : nat) :
  jQuery.eq c (Z.of_nat n)
  = match nth_error c n with Some x => [x] | None => [] end.
Proof.
  unfold jQuery.eq.
  destruct (Z.ltb_spec (Z.of_nat n) 0) as [? | _]; [lia |].
  rewrite Z.add_0_r, Nat2Z.id.
  destruct (Z.leb_spec 0 (Z.of_nat n)); [| lia].
  destruct (Z.ltb_spec (Z.of_nat n) (Z.of_nat (length c))) as [_ | Hge];
    [reflexivity |].
  simpl. assert (E : nth_error c n = None) by (apply nth_error_None; lia).
  rewrite E. reflexivity.
Qed.

Lemma rollDice_loop_all (rest : jq) :
  forall (done : jq) (pending : list jq),
    Dice.rollDice_loop (done ++ rest) (length rest) (Z.of_nat (length done))
      pending
    = pending ++ map (fun n => [n]) rest.
Proof.
  induction rest as [| n rest IH]; intros done pending;
    cbn [Dice.rollDice_loop length map].
  - rewrite app_nil_r. reflexivity.
  - rewrite eq_nat, nth_error_app2, Nat.sub_diag by lia. cbn [nth_error].
    replace (done ++ n :: rest) with ((done ++ [n]) ++ rest)
      by (rewrite <- app_assoc; reflexivity).
    replace (Z.of_nat (length done) + 1)
      with (Z.of_nat (length (done ++ [n])))
      by (rewrite length_app; simpl; lia).
    rewrite IH, <- app_assoc. reflexivity.
Qed.

(** One roll is asked for every die [filter(true)] returns. *)
Lemma rollDice_pending (p : panel) :
  Dice.pending (Dice.rollDice p)
  = map (fun n => [n]) (Dice.filter p (JS.Bool true))
  /\ Dice.len (Dice.rollDice p) = length (Dice.pending (Dice.rollDice p)).
Proof.
  unfold Dice.rollDice. cbn [Dice.pending Dice.len].
  assert (E : Dice.rollDice_loop (Dice.filter p (JS.Bool true))
                (length (Dice.filter p (JS.Bool true))) 0 []
              = map (fun n => [n]) (Dice.filter p (JS.Bool true)))
    by exact (rollDice_loop_all (Dice.filter p (JS.Bool true)) [] []).
  rewrite E, length_map. split; reflexivity.
Qed.

(** C5: for every dice state and every boolean [b], the dice whose held
    flag (the class [checked]) equals [b] are returned by [filter], exactly
    and in index order.  The argument of [filter] names the dice to leave
    out: the dice whose flag equals [b] are [filter(!b)], and the dice that
    are not held, which [rollDice] rolls, are [filter(true)]. *)
Theorem C5_filter_by_held (p : panel) (b : bool) :
  (forall i, In i (Dice.filter p (JS.Bool (negb b)))
             <-> exists e, nth_error p i = Some e /\ checked e = b)
  /\ StronglySorted lt (Dice.filter p (JS.Bool (negb b)))
  /\ Dice.pending (Dice.rollDice p)
     = map (fun n => [n]) (Dice.filter p (JS.Bool (negb false))).
Proof.
  split; [| split; [apply filter_sorted | apply rollDice_pending]].
  intros i. rewrite In_filter, negb_involutive. reflexivity.
Qed.

(** *** Selecting the dice of one value *)

Lemma update_length (p : panel) (n : nat) (f : el -> el) :
  length (jQuery.update p n f) = length p.
Proof.
  revert n. induction p as [| e p IH]; intros [| n]; simpl; auto.
Qed.

Lemma nth_error_update (p : panel) (n : nat) (f : el -> el) (i : nat) :
  nth_error (jQuery.update p n f) i
  = if Nat.eqb i n then option_map f (nth_error p i) else nth_error p i.
Proof.
  revert n i. induction p as [| e p IH]; intros [| n] [| i]; simpl; auto.
  destruct (Nat.eqb _ _); reflexivity.
Qed.


Lemma getDieCount_loop_filter (p : panel) (v : JS.value) (rest : jq) :
  forall (done arr : jq),
    Dice.getDieCount_loop p (done ++ rest) v (length rest) (length done) arr
    = arr ++ List.filter (has_value p v) rest.
Proof.
  induction rest as [| n rest IH]; intros done arr;
    cbn [Dice.getDieCount_loop length List.filter].
  - rewrite app_nil_r. reflexivity.
  - rewrite nth_error_app2, Nat.sub_diag by lia. cbn [nth_error].
    replace (done ++ n :: rest) with ((done ++ [n]) ++ rest)
      by (rewrite <- app_assoc; reflexivity).
    replace (S (length done)) with (length (done ++ [n]))
      by (rewrite length_app; simpl; lia).
    rewrite IH.
    assert (Hv : has_value p v n
                 = match nth_error p n with
                   | Some e => JS.strict_eq (JS.Str (value e)) v
                   | None => false
                   end) by reflexivity.
    rewrite Hv. destruct (nth_error p n) as [e |]; [| reflexivity].
    destruct (JS.strict_eq (JS.Str (value e)) v);
      [rewrite <- app_assoc |]; reflexivity.
Qed.

Lemma getDieCount_filter (p : panel) (v isChecked : JS.value) :
  Dice.getDieCount p v isChecked
  = List.filter (has_value p v) (Dice.filter p isChecked).
Proof.
  unfold Dice.getDieCount.
  apply (getDieCount_loop_filter p v (Dice.filter p isChecked) [] []).
Qed.

Lemma eq_dice (p : panel) (n : nat) :
  (n < length p)%nat -> jQuery.eq (Dice.dice p) (Z.of_nat n) = [n].
Proof.
  intros Hn. unfold jQuery.eq, Dice.dice. rewrite length_seq.
  destruct (Z.ltb_spec (Z.of_nat n) 0) as [? | _]; [lia |].
  rewrite Z.add_0_r, Nat2Z.id, nth_error_seq.
  destruct (Z.leb_spec 0 (Z.of_nat n)); [| lia].
  destruct (Z.ltb_spec (Z.of_nat n) (Z.of_nat (length p))); [| lia].
  destruct (Nat.ltb_spec n (length p)); [reflexivity | lia].
Qed.

Lemma getDieValue_stored (p : panel) (n : nat) (e : el) :
  nth_error p n = Some e ->
  Dice.getDieValue p (Z.of_nat n)
  = JS.or (JS.parseInt (JS.Str (value e))) (JS.Num 0).
Proof.
  intros E. unfold Dice.getDieValue.
  rewrite eq_dice by (apply nth_error_Some; congruence).
  unfold jQuery.val. rewrite E. reflexivity.
Qed.









(** ** The join of the rolls *)

Lemma on_value_result (len : nat) (cb : bool) (st : Dice.join) (v : JS.value) :
  Dice.result (Dice.on_value len cb st v) = Dice.result st ++ [v].
Proof.
  unfold Dice.on_value. cbv zeta.
  destruct (Nat.eqb _ len && cb)%bool; reflexivity.
Qed.

Lemma on_value_fired (len : nat) (cb : bool) (st : Dice.join) (v : JS.value) :
  Dice.fired (Dice.on_value len cb st v)
  = Dice.fired st
    ++ (if (Nat.eqb (S (length (Dice.result st))) len && cb)%bool
        then [len] else []).
Proof.
  unfold Dice.on_value. cbv zeta. rewrite length_app, Nat.add_1_r. cbn [length].
  destruct (Nat.eqb_spec (S (length (Dice.result st))) len) as [E | E];
    destruct cb; cbn [andb Dice.fired]; rewrite ?app_nil_r; try reflexivity.
  rewrite E. reflexivity.
Qed.

(** What further arrivals do to the shared state: every value is pushed,
    and [callback] is called once, at the arrival that brings
    [result.length] to [len], if that arrival is among them. *)
Lemma deliver_spec (len : nat) (cb : bool) (arrivals : list (jq * JS.value)) :
  forall st,
    Dice.result (Dice.deliver len cb arrivals st)
    = Dice.result st ++ map snd arrivals
    /\ Dice.fired (Dice.deliver len cb arrivals st)
       = Dice.fired st
         ++ (if (cb && Nat.ltb (length (Dice.result st)) len
                 && Nat.leb len (length (Dice.result st) + length arrivals))%bool
             then [len] else []).
Proof.
  unfold Dice.deliver.
  induction arrivals as [| [c v] arrivals IH]; intros st;
    cbn [fold_left map length snd].
  - rewrite !app_nil_r, Nat.add_0_r. split; [reflexivity |].
    destruct cb; cbn [andb]; [| rewrite app_nil_r; reflexivity].
    destruct (Nat.ltb_spec (length (Dice.result st)) len);
      destruct (Nat.leb_spec len (length (Dice.result st)));
      cbn [andb]; try lia; rewrite app_nil_r; reflexivity.
  - destruct (IH (Dice.on_value len cb st v)) as [Hr Hf]. rewrite Hr, Hf.
    rewrite on_value_result, on_value_fired, length_app, <- !app_assoc.
    cbn [length app]. split; [reflexivity |]. f_equal.
    set (L := length (Dice.result st)).
    destruct cb; cbn [andb]; [| rewrite Bool.andb_false_r; reflexivity].
    rewrite Bool.andb_true_r.
    destruct (Nat.eqb_spec (S L) len);
      destruct (Nat.ltb_spec (L + 1) len); destruct (Nat.ltb_spec L len);
      destruct (Nat.leb_spec len (L + 1 + length arrivals));
      destruct (Nat.leb_spec len (L + S (length arrivals)));
      cbn [andb app]; try lia; reflexivity.
Qed.

(** C3, as stated, fails when no die is targeted: with every die held,
    [rollDice] asks for no roll, the only arrival order is the empty one,
    and [callback] is not called once but never. *)
Lemma C3_onDone_once_counterexample :
  let r := Dice.rollDice p_all_held in
  Dice.len r = 0%nat
  /\ Permutation (map fst (@nil (jq * JS.value))) (Dice.pending r)
  /\ length (Dice.fired (Dice.deliver (Dice.len r) true [] (Dice.state r)))
     <> 1%nat.
Proof. vm_compute. repeat split; [constructor | discriminate]. Qed.

(** C3 (amended): for every call of [rollDice] with a callback and
    [n >= 1] targeted dice, and every arrival order of the [n] per-die
    results, the callback is invoked exactly once, and only after all [n]
    results have been pushed onto [result]: it has not been called after
    [k < n] arrivals, and from the [n]-th arrival on it has been called
    once, at the time [result] held [n] values. *)
Theorem C3_onDone_once (p : panel) (arrivals : list (jq * JS.value)) :
  let r := Dice.rollDice p in
  (1 <= Dice.len r)%nat ->
  Permutation (map fst arrivals) (Dice.pending r) ->
  (forall k, (k <= length arrivals)%nat ->
     let st := Dice.deliver (Dice.len r) true (firstn k arrivals) (Dice.state r) in
     length (Dice.result st) = k
     /\ Dice.fired st = if Nat.ltb k (Dice.len r) then [] else [Dice.len r])
  /\ Dice.fired (Dice.deliver (Dice.len r) true arrivals (Dice.state r))
     = [Dice.len r].
Proof.
  intros r Hn Hperm.
  assert (Hlen : length arrivals = Dice.len r).
  { apply Permutation_length in Hperm. rewrite length_map in Hperm.
    rewrite Hperm. symmetry. apply rollDice_pending. }
  assert (Hst : Dice.state r = Dice.mkJoin [] []) by reflexivity.
  assert (Hk : forall k, (k <= length arrivals)%nat ->
     let st := Dice.deliver (Dice.len r) true (firstn k arrivals) (Dice.state r) in
     length (Dice.result st) = k
     /\ Dice.fired st = if Nat.ltb k (Dice.len r) then [] else [Dice.len r]).
  { intros k Hle st.
    destruct (deliver_spec (Dice.len r) true (firstn k arrivals) (Dice.state r))
      as [Hr Hf].
    unfold st. rewrite Hr, Hf, Hst. cbn [Dice.result Dice.fired app length andb].
    rewrite length_map, length_firstn, Nat.min_l by exact Hle.
    split; [reflexivity |]. rewrite Nat.add_0_l.
    destruct (Nat.ltb_spec 0 (Dice.len r)); [| lia].
    destruct (Nat.leb_spec (Dice.len r) k); destruct (Nat.ltb_spec k (Dice.len r));
      cbn [andb]; try lia; reflexivity. }
  split; [exact Hk |].
  destruct (Hk (length arrivals) (le_n _)) as [_ Hf].
  rewrite firstn_all in Hf. rewrite Hf, Hlen, Nat.ltb_irrefl. reflexivity.
Qed.

Lemma C3_onDone_once_witness :
  Dice.fired
    (Dice.deliver 3 true
       [([4%nat], JS.Num 2); ([1%nat], JS.Num 6); ([3%nat], JS.Num 6)]
       (Dice.mkJoin [] []))
  = [3%nat].
Proof.
  apply (C3_onDone_once p_two_held
           [([4%nat], JS.Num 2); ([1%nat], JS.Num 6); ([3%nat], JS.Num 6)]).
  - vm_compute. lia.
  - vm_compute.
    apply (perm_trans (l' := [[1%nat]; [4%nat]; [3%nat]]));
      [apply perm_swap | apply perm_skip, perm_swap].
Defined.

(** C7: for every call of [rollDice] in a state where every die is held,
    no roll is asked for, so that no per-die callback exists that could
    call [callback]; and whatever were delivered, the test
    [result.length === len] with [len = 0] never passes: [callback] is
    never invoked. *)
Theorem C7_all_held_never_done (p : panel) :
  (forall e, In e p -> checked e = true) ->
  let r := Dice.rollDice p in
  Dice.pending r = []
  /\ Dice.len r = 0%nat
  /\ forall cb arrivals,
       Dice.fired (Dice.deliver (Dice.len r) cb arrivals (Dice.state r)) = [].
Proof.
  intros Hall r.
  assert (Hf : Dice.filter p (JS.Bool true) = []).
  { destruct (Dice.filter p (JS.Bool true)) as [| n l] eqn:E; [reflexivity |].
    assert (Hn : In n (Dice.filter p (JS.Bool true))) by (rewrite E; left; reflexivity).
    apply In_filter in Hn as (e & Ee & Hc).
    rewrite (Hall e (nth_error_In _ _ Ee)) in Hc. discriminate. }
  destruct (rollDice_pending p) as [Hp Hl]. fold r in Hp, Hl.
  rewrite Hf in Hp. cbn [map] in Hp.
  assert (H0 : Dice.len r = 0%nat) by (rewrite Hl, Hp; reflexivity).
  repeat split; [exact Hp | exact H0 |].
  intros cb arrivals.
  destruct (deliver_spec (Dice.len r) cb arrivals (Dice.state r)) as [_ Hfd].
  rewrite Hfd, H0. cbn [Nat.ltb Nat.leb andb].
  rewrite Bool.andb_false_r. reflexivity.
Qed.

Lemma C7_all_held_never_done_witness :
  Dice.pending (Dice.rollDice p_all_held) = []
  /\ Dice.len (Dice.rollDice p_all_held) = 0%nat
  /\ forall cb arrivals,
       Dice.fired (Dice.deliver (Dice.len (Dice.rollDice p_all_held)) cb arrivals
                     (Dice.state (Dice.rollDice p_all_held))) = [].
Proof.
  apply (C7_all_held_never_done p_all_held).
  intros e He. vm_compute in He.
  repeat (destruct He as [<- | He]; [reflexivity |]). contradiction.
Defined.

(** ** Missing and unparsable values *)

(** C9: for every die index, [getDieValue(index)] returns a number, which
    is 0 when the stored value is missing or does not parse as an integer;
    the embedded function is total, as is each JavaScript operation it is
    made of, so no error is raised.  Consequently [getDiceValues()] always
    returns five numbers, entry [i] being [getDieValue(i)], hence 0 for
    every missing or unparsable entry. *)
Theorem C9_getDieValue_defaults_to_zero (p : panel) (index : Z) :
  (exists z, Dice.getDieValue p index = JS.Num z)
  /\ (stored p index = JS.Undefined \/ JS.parseInt (stored p index) = JS.NaN ->
      Dice.getDieValue p index = JS.Num 0)
  /\ length (Dice.getDiceValues p) = 5%nat
  /\ (forall i, (i < 5)%nat ->
        nth i (Dice.getDiceValues p) JS.Undefined
        = Dice.getDieValue p (Z.of_nat i))
  /\ (forall i, (i < 5)%nat ->
        stored p (Z.of_nat i) = JS.Undefined
        \/ JS.parseInt (stored p (Z.of_nat i)) = JS.NaN ->
        nth i (Dice.getDiceValues p) JS.Undefined = JS.Num 0).
Proof.
  assert (Hzero : forall j,
            stored p j = JS.Undefined \/ JS.parseInt (stored p j) = JS.NaN ->
            Dice.getDieValue p j = JS.Num 0).
  { intros j H. unfold Dice.getDieValue. fold (stored p j).
    assert (E : JS.parseInt (stored p j) = JS.NaN)
      by (destruct H as [H | H]; [rewrite H; reflexivity | exact H]).
    rewrite E. reflexivity. }
  assert (Hnth : forall i, (i < 5)%nat ->
            nth i (Dice.getDiceValues p) JS.Undefined
            = Dice.getDieValue p (Z.of_nat i)).
  { intros i Hi. rewrite getDiceValues_map.
    do 5 (destruct i as [| i]; [reflexivity |]). lia. }
  split; [exists (face p index); apply getDieValue_face |].
  split; [apply Hzero |].
  split; [reflexivity |].
  split; [exact Hnth |].
  intros i Hi H. rewrite (Hnth i Hi). apply Hzero, H.
Qed.

Lemma C9_getDieValue_defaults_to_zero_witness :
  Dice.getDieValue p_damaged 0 = JS.Num 0
  /\ Dice.getDieValue p_damaged 3 = JS.Num 0
  /\ Dice.getDiceValues p_damaged
     = [JS.Num 0; JS.Num 0; JS.Num 4; JS.Num 0; JS.Num 0].
Proof.
  split; [| split].
  - apply (C9_getDieValue_defaults_to_zero p_damaged 0). right. reflexivity.
  - apply (C9_getDieValue_defaults_to_zero p_damaged 3). left. reflexivity.
  - reflexivity.
Defined.

(** ** Clicks *)

Lemma nth_error_toggleClass_single (p : panel) (k i : nat) :
  nth_error (jQuery.toggleClass p [k]) i
  = if Nat.eqb i k
    then option_map (fun e => mkEl (value e) (negb (checked e))) (nth_error p i)
    else nth_error p i.
Proof. unfold jQuery.toggleClass. simpl. apply nth_error_update. Qed.

Lemma el_eta (e : el) : mkEl (value e) (checked e) = e.
Proof. destruct e. reflexivity. Qed.

(** X1: a click without the control and meta keys flips the class of the
    die clicked and of no other, changes no value, and a second such click
    on the same die gives the panel back. *)
Theorem X1_plain_click_flips_one (p : panel) (k : nat) :
  let ev := Dice.mkEvent k false false in
  (forall i,
     nth_error (Dice.diceClick p ev) i
     = if Nat.eqb i k
       then option_map (fun e => mkEl (value e) (negb (checked e)))
              (nth_error p i)
       else nth_error p i)
  /\ Dice.diceClick (Dice.diceClick p ev) ev = p.
Proof.
  intros ev.
  assert (H1 : forall q i,
             nth_error (Dice.diceClick q ev) i
             = if Nat.eqb i k
               then option_map (fun e => mkEl (value e) (negb (checked e)))
                      (nth_error q i)
               else nth_error q i).
  { intros q i. unfold Dice.diceClick. cbn [Dice.ctrlKey Dice.metaKey ev orb].
    apply nth_error_toggleClass_single. }
  split; [apply H1 |].
  apply nth_error_ext. intros i. rewrite H1, H1.
  destruct (Nat.eqb i k); [| reflexivity].
  destruct (nth_error p i) as [e |]; [| reflexivity].
  cbn [option_map value checked]. rewrite negb_involutive, el_eta. reflexivity.
Qed.






(** ** What the combinations depend on *)

Lemma map_value_update (p : panel) (n : nat) (f : el -> el) :
  (forall e, value (f e) = value e) ->
  map value (jQuery.update p n f) = map value p.
Proof.
  intros Hf. revert n. induction p as [| e p IH]; intros [| n]; simpl;
    rewrite ?Hf, ?IH; reflexivity.
Qed.

Lemma map_value_fold_update (f : el -> el) (c : jq) :
  (forall e, value (f e) = value e) ->
  forall p,
    map value (fold_left (fun q n => jQuery.update q n f) c p) = map value p.
Proof.
  intros Hf. induction c as [| n c IH]; intros p; simpl; [reflexivity |].
  rewrite IH. apply map_value_update, Hf.
Qed.

Lemma map_value_diceClick (p : panel) (ev : Dice.event) :
  map value (Dice.diceClick p ev) = map value p.
Proof.
  unfold Dice.diceClick, jQuery.toggleClass_to, jQuery.toggleClass.
  destruct (Dice.ctrlKey ev || Dice.metaKey ev)%bool;
    apply map_value_fold_update; reflexivity.
Qed.

Lemma getDieValue_map_value (p q : panel) (index : Z) :
  map value p = map value q -> Dice.getDieValue p index = Dice.getDieValue q index.
Proof.
  intros H. unfold Dice.getDieValue, Dice.dice.
  assert (Hl : length p = length q)
    by (rewrite <- (length_map value p), H; apply length_map).
  rewrite Hl. f_equal. f_equal.
  destruct (jQuery.eq (seq 0 (length q)) index) as [| n c]; [reflexivity |].
  unfold jQuery.val.
  assert (Hn : option_map value (nth_error p n) = option_map value (nth_error q n))
    by (rewrite <- !nth_error_map, H; reflexivity).
  destruct (nth_error p n), (nth_error q n); simpl in Hn; congruence.
Qed.

Lemma faces_unNum (p : panel) : faces p = map unNum (Dice.getDiceValues p).
Proof.
  rewrite getDiceValues_faces, map_map. cbn [unNum]. rewrite map_id.
  reflexivity.
Qed.

Lemma occ_Permutation (x : Z) (l1 l2 : list Z) :
  Permutation l1 l2 -> occ x l1 = occ x l2.
Proof.
  induction 1 as [| z l1 l2 _ IH | y z l | l1 l2 l3 _ IH1 _ IH2]; simpl;
    [reflexivity | rewrite IH; reflexivity | lia | congruence].
Qed.

Lemma sum_Permutation (l1 l2 : list Z) : Permutation l1 l2 -> sum l1 = sum l2.
Proof.
  unfold sum.
  induction 1 as [| z l1 l2 _ IH | y z l | l1 l2 l3 _ IH1 _ IH2]; simpl;
    [reflexivity | rewrite IH; reflexivity | lia | congruence].
Qed.

Lemma sum_app (l1 l2 : list Z) : sum (l1 ++ l2) = sum l1 + sum l2.
Proof.
  unfold sum. induction l1 as [| z l1 IH]; simpl; [reflexivity | rewrite IH; lia].
Qed.

Lemma firstn_snoc (zs : list Z) (len : nat) (z : Z) :
  nth_error zs len = Some z -> firstn (S len) zs = firstn len zs ++ [z].
Proof.
  revert zs. induction len as [| len IH]; intros [| a zs] Hz;
    simpl in *; try discriminate.
  - injection Hz as ->. reflexivity.
  - rewrite (IH zs Hz). reflexivity.
Qed.

Lemma getDiceTotal_loop_firstn (zs : list Z) (len : nat) :
  forall total, (len <= length zs)%nat ->
    Dice.getDiceTotal_loop (map JS.Num zs) len (JS.Num total)
    = JS.Num (total + sum (firstn len zs)).
Proof.
  induction len as [| len IH]; intros total Hlen; cbn [Dice.getDiceTotal_loop].
  - simpl. f_equal. unfold sum. simpl. lia.
  - destruct (nth_error zs len) as [z |] eqn:Hz;
      [| apply nth_error_None in Hz; lia].
    assert (Hn : nth len (map JS.Num zs) JS.Undefined = JS.Num z)
      by (apply nth_error_nth; rewrite nth_error_map, Hz; reflexivity).
    rewrite Hn. cbn [JS.add JS.toNumber]. rewrite IH by lia.
    rewrite (firstn_snoc zs len z Hz), sum_app. f_equal. unfold sum. simpl. lia.
Qed.

(** In the integer model of numbers [getDiceTotal()] is the sum of the
    five values; the theorems use it where that sum is exact. *)
Lemma getDiceTotal_sum (p : panel) :
  Dice.getDiceTotal p = JS.Num (sum (faces p)).
Proof.
  unfold Dice.getDiceTotal. rewrite getDiceValues_faces, length_map.
  rewrite getDiceTotal_loop_firstn by lia. rewrite firstn_all. reflexivity.
Qed.

Lemma isThreeOfaKind_counts (p q : panel) :
  Dice.getDiceCounts p = Dice.getDiceCounts q ->
  Dice.isThreeOfaKind p = Dice.isThreeOfaKind q
  /\ Dice.isFourOfaKind p = Dice.isFourOfaKind q
  /\ Dice.isFullhouse p = Dice.isFullhouse q
  /\ Dice.isYam p = Dice.isYam q.
Proof.
  intros H.
  unfold Dice.isThreeOfaKind, Dice.isFourOfaKind, Dice.isFullhouse, Dice.isYam.
  rewrite H. repeat split.
Qed.

(** X4: counts and combinations depend on the five values as a multiset
    only: two panels whose [getDiceValues()] are permutations of one
    another have the same [getDiceCounts()], and every combination
    predicate returns the same on both; so does [getDiceTotal()] when the
    values lie in [0..6], where the sums are exact. *)
Theorem X4_order_independent (p q : panel) :
  Permutation (Dice.getDiceValues p) (Dice.getDiceValues q) ->
  (forall v, Dice.getDiceCount p (JS.Num v) = Dice.getDiceCount q (JS.Num v))
  /\ Dice.getDiceCounts p = Dice.getDiceCounts q
  /\ (values_in_range p = true -> Dice.getDiceTotal p = Dice.getDiceTotal q)
  /\ Dice.isThreeOfaKind p = Dice.isThreeOfaKind q
  /\ Dice.isFourOfaKind p = Dice.isFourOfaKind q
  /\ Dice.isFullhouse p = Dice.isFullhouse q
  /\ Dice.isStreet p = Dice.isStreet q
  /\ Dice.isYam p = Dice.isYam q.
Proof.
  intros H.
  assert (Hf : Permutation (faces p) (faces q))
    by (rewrite !faces_unNum; apply Permutation_map, H).
  assert (Hc : forall v, Dice.getDiceCount p (JS.Num v)
                         = Dice.getDiceCount q (JS.Num v))
    by (intros v; rewrite !getDiceCount_occ; apply occ_Permutation, Hf).
  assert (Hcs : Dice.getDiceCounts p = Dice.getDiceCounts q).
  { rewrite !getDiceCounts_occ. apply map_ext. intros v.
    apply occ_Permutation, Hf. }
  destruct (isThreeOfaKind_counts p q Hcs) as (H3 & H4 & Hfh & Hy).
  repeat split; try assumption.
  - intros _. rewrite !getDiceTotal_sum. f_equal. apply sum_Permutation, Hf.
  - unfold Dice.isStreet. rewrite !Hc. reflexivity.
Qed.

Lemma X4_order_independent_witness :
  Dice.getDiceCounts (panel_of ["5"; "2"; "2"; "5"; "2"]%string)
  = Dice.getDiceCounts p22255
  /\ Dice.getDiceTotal (panel_of ["5"; "2"; "2"; "5"; "2"]%string)
     = Dice.getDiceTotal p22255
  /\ Dice.isFullhouse (panel_of ["5"; "2"; "2"; "5"; "2"]%string)
     = Dice.isFullhouse p22255.
Proof.
  assert (H : Permutation
                (Dice.getDiceValues (panel_of ["5"; "2"; "2"; "5"; "2"]%string))
                (Dice.getDiceValues p22255)).
  { vm_compute.
    apply (perm_trans (l' := [JS.Num 2; JS.Num 5; JS.Num 2; JS.Num 5; JS.Num 2]));
      [apply perm_swap |].
    apply perm_skip.
    apply (perm_trans (l' := [JS.Num 2; JS.Num 5; JS.Num 5; JS.Num 2]));
      [apply perm_swap |].
    apply perm_skip.
    apply (perm_trans (l' := [JS.Num 5; JS.Num 2; JS.Num 5]));
      [apply perm_skip, perm_swap | apply perm_swap]. }
  destruct (X4_order_independent _ _ H) as (_ & Hc & Ht & _ & _ & Hf & _).
  split; [exact Hc | split; [exact (Ht eq_refl) | exact Hf]].
Defined.

(** X5: selecting changes no value: after any click, with or without the
    control and meta keys, [getDiceValues()], [getDiceCounts()],
    [getDiceTotal()] and every combination predicate return what they
    returned before, and the panel has as many dice. *)
Theorem X5_click_keeps_values (p : panel) (ev : Dice.event) :
  length (Dice.diceClick p ev) = length p
  /\ map value (Dice.diceClick p ev) = map value p
  /\ Dice.getDiceValues (Dice.diceClick p ev) = Dice.getDiceValues p
  /\ Dice.getDiceCounts (Dice.diceClick p ev) = Dice.getDiceCounts p
  /\ Dice.getDiceTotal (Dice.diceClick p ev) = Dice.getDiceTotal p
  /\ Dice.isThreeOfaKind (Dice.diceClick p ev) = Dice.isThreeOfaKind p
  /\ Dice.isFourOfaKind (Dice.diceClick p ev) = Dice.isFourOfaKind p
  /\ Dice.isFullhouse (Dice.diceClick p ev) = Dice.isFullhouse p
  /\ Dice.isStreet (Dice.diceClick p ev) = Dice.isStreet p
  /\ Dice.isYam (Dice.diceClick p ev) = Dice.isYam p.
Proof.
  pose proof (map_value_diceClick p ev) as Hv.
  assert (Hvals : Dice.getDiceValues (Dice.diceClick p ev) = Dice.getDiceValues p).
  { rewrite !getDiceValues_map. apply map_ext. intros i.
    apply getDieValue_map_value, Hv. }
  assert (Hf : faces (Dice.diceClick p ev) = faces p)
    by (rewrite !faces_unNum, Hvals; reflexivity).
  assert (Hcs : Dice.getDiceCounts (Dice.diceClick p ev) = Dice.getDiceCounts p)
    by (rewrite !getDiceCounts_occ, Hf; reflexivity).
  destruct (isThreeOfaKind_counts _ _ Hcs) as (H3 & H4 & Hfh & Hy).
  split; [rewrite <- (length_map value), Hv; apply length_map |].
  repeat split; try assumption.
  - rewrite !getDiceTotal_sum, Hf. reflexivity.
  - unfold Dice.isStreet. rewrite !getDiceCount_occ, Hf. reflexivity.
Qed.

(** ** Total and counts *)

Lemma sum_weighted (zs : list Z) :
  (forall z, In z zs -> 0 <= z <= 6) ->
  sum zs = 1 * occ 1 zs + 2 * occ 2 zs + 3 * occ 3 zs + 4 * occ 4 zs
           + 5 * occ 5 zs + 6 * occ 6 zs
  /\ 0 <= sum zs <= 6 * Z.of_nat (length zs).
Proof.
  induction zs as [| z zs IH]; intros Hr; [unfold sum; simpl; lia |].
  assert (Hz : 0 <= z <= 6) by (apply Hr; left; reflexivity).
  destruct (IH (fun y Hy => Hr y (or_intror Hy))) as [IH1 IH2].
  change (sum (z :: zs)) with (z + sum zs). cbn [occ length].
  destruct (Z.eqb_spec z 1), (Z.eqb_spec z 2), (Z.eqb_spec z 3),
    (Z.eqb_spec z 4), (Z.eqb_spec z 5), (Z.eqb_spec z 6); lia.
Qed.

(** X6: when the five values lie in [0..6], [getDiceTotal()] returns
    their sum, a number from 0 to 30, which is the sum of the faces
    weighted by [getDiceCounts()]:
    [1*counts[0] + 2*counts[1] + ... + 6*counts[5]]. *)
Theorem X6_total_and_counts (p : panel) :
  values_in_range p = true ->
  exists t,
    Dice.getDiceTotal p = JS.Num t
    /\ t = face p 0 + face p 1 + face p 2 + face p 3 + face p 4
    /\ 0 <= t <= 30
    /\ t = 1 * nth 0 (Dice.getDiceCounts p) 0
           + 2 * nth 1 (Dice.getDiceCounts p) 0
           + 3 * nth 2 (Dice.getDiceCounts p) 0
           + 4 * nth 3 (Dice.getDiceCounts p) 0
           + 5 * nth 4 (Dice.getDiceCounts p) 0
           + 6 * nth 5 (Dice.getDiceCounts p) 0.
Proof.
  intros Hr.
  exists (sum (faces p)). split; [apply getDiceTotal_sum |].
  split; [unfold sum, faces; simpl; lia |].
  destruct (sum_weighted (faces p) (values_in_range_faces p Hr)) as [Hw Hb].
  rewrite faces_length in Hb. split; [lia |].
  rewrite getDiceCounts_occ. cbn [map nth]. exact Hw.
Qed.

Lemma X6_total_and_counts_witness :
  exists t, Dice.getDiceTotal p11226 = JS.Num t /\ 0 <= t <= 30.
Proof.
  destruct (X6_total_and_counts p11226 eq_refl) as (t & Ht & _ & Hr & _).
  exists t. split; [exact Ht | exact Hr].
Defined.

Lemma occ_le_length (x : Z) (zs : list Z) : occ x zs <= Z.of_nat (length zs).
Proof.
  induction zs as [| z zs IH]; cbn [occ length]; [lia |].
  destruct (z =? x); lia.
Qed.

Lemma getDiceCount_loop_other (zs : list Z) (v : JS.value) (len : nat) :
  (forall x, v <> JS.Num x) ->
  (len <= length zs)%nat ->
  forall count,
    Dice.getDiceCount_loop (map JS.Num zs) v len count = count.
Proof.
  intros Hv. induction len as [| len IH]; intros Hlen count;
    cbn [Dice.getDiceCount_loop]; [reflexivity |].
  rewrite IH by lia.
  destruct (nth_error zs len) as [z |] eqn:Hz;
    [| apply nth_error_None in Hz; lia].
  rewrite (nth_error_nth (map JS.Num zs) len JS.Undefined (x := JS.Num z))
    by (rewrite nth_error_map, Hz; reflexivity).
  destruct v as [| b | | x | s]; try reflexivity.
  exfalso. apply (Hv x). reflexivity.
Qed.

(** X7: whatever the panel holds, [getDiceCounts()] has six entries, each
    from 0 to 5, that sum to at most 5; [getDiceCount(value)] is the number
    of the five values equal to [value], and it is 0 for a [value] that is
    not a number (the string ["3"], say), the comparison being strict. *)
Theorem X7_count_bounds (p : panel) :
  length (Dice.getDiceCounts p) = 6%nat
  /\ (forall c, In c (Dice.getDiceCounts p) -> 0 <= c <= 5)
  /\ 0 <= sum (Dice.getDiceCounts p) <= 5
  /\ (forall x, Dice.getDiceCount p (JS.Num x) = occ x (faces p)
                /\ 0 <= Dice.getDiceCount p (JS.Num x) <= 5)
  /\ (forall v, (forall x, v <> JS.Num x) -> Dice.getDiceCount p v = 0).
Proof.
  assert (Hb : forall x, 0 <= occ x (faces p) <= 5).
  { intros x. pose proof (occ_nonneg x (faces p)).
    pose proof (occ_le_length x (faces p)) as Hle.
    rewrite faces_length in Hle. lia. }
  split; [reflexivity |].
  split.
  { intros c Hc. rewrite getDiceCounts_occ in Hc. apply in_map_iff in Hc.
    destruct Hc as (x & <- & _). apply Hb. }
  split.
  { rewrite sum_getDiceCounts.
    pose proof (occ_1_6_le (faces p)) as Hle. rewrite faces_length in Hle.
    pose proof (Hb 1). pose proof (Hb 2). pose proof (Hb 3).
    pose proof (Hb 4). pose proof (Hb 5). pose proof (Hb 6). lia. }
  split.
  { intros x. rewrite getDiceCount_occ. split; [reflexivity | apply Hb]. }
  intros v Hv. unfold Dice.getDiceCount. rewrite getDiceValues_faces.
  apply getDiceCount_loop_other; [exact Hv | rewrite length_map; lia].
Qed.

Lemma X7_count_bounds_witness :
  Dice.getDiceCount p22255 (JS.Str "2") = 0.
Proof.
  apply (X7_count_bounds p22255). intros x. discriminate.
Defined.

(** ** More on filtering *)

Lemma filter_split (f : nat -> bool) (l : list nat) :
  Permutation (List.filter f l ++ List.filter (fun n => negb (f n)) l) l.
Proof.
  induction l as [| n l IH]; simpl; [constructor |].
  destruct (f n); simpl.
  - apply perm_skip, IH.
  - symmetry. apply Permutation_cons_app. symmetry. exact IH.
Qed.

Lemma filter_as_list_filter (p : panel) (isChecked : JS.value) :
  Dice.filter p isChecked
  = List.filter
      (fun n => JS.strict_neq (JS.Bool (jQuery.hasClass p [n])) isChecked)
      (Dice.dice p).
Proof. unfold Dice.filter. apply grep_filter. Qed.

(** X8: [filter(true)] and [filter(false)] split the dice of the panel:
    every die is in one of them and in one only, so that the number of dice
    [rollDice] rolls and the number of checked dice add up to the number of
    dice; with an argument that is not a boolean ([filter()], say)
    [filter] returns every die. *)
Theorem X8_filter_splits (p : panel) :
  Permutation
    (Dice.filter p (JS.Bool true) ++ Dice.filter p (JS.Bool false))
    (Dice.dice p)
  /\ (Dice.len (Dice.rollDice p) + length (Dice.filter p (JS.Bool false))
      = length p)%nat
  /\ (forall v, (forall b, v <> JS.Bool b) -> Dice.filter p v = Dice.dice p).
Proof.
  assert (Hp : Permutation
                 (Dice.filter p (JS.Bool true) ++ Dice.filter p (JS.Bool false))
                 (Dice.dice p)).
  { rewrite !filter_as_list_filter.
    rewrite (filter_ext
               (fun n => JS.strict_neq (JS.Bool (jQuery.hasClass p [n]))
                           (JS.Bool false))
               (fun n => negb (JS.strict_neq (JS.Bool (jQuery.hasClass p [n]))
                                 (JS.Bool true)))).
    - apply filter_split.
    - intros n. unfold JS.strict_neq. cbn [JS.strict_eq].
      destruct (jQuery.hasClass p [n]); reflexivity. }
  split; [exact Hp |]. split.
  - apply Permutation_length in Hp. rewrite length_app in Hp.
    unfold Dice.dice in Hp. rewrite length_seq in Hp. exact Hp.
  - intros v Hv. rewrite filter_as_list_filter.
    apply forallb_filter_id, forallb_forall. intros n _.
    unfold JS.strict_neq.
    destruct v as [| b | | z | s]; try reflexivity.
    exfalso. apply (Hv b). reflexivity.
Qed.

Lemma X8_filter_splits_witness :
  Dice.filter p_two_held JS.Undefined = [0; 1; 2; 3; 4]%nat.
Proof.
  apply (X8_filter_splits p_two_held). intros b. discriminate.
Defined.

(** X9: [getDieCount(value, isChecked)] returns, in index order, the dice
    that [filter(isChecked)] returns and whose stored string is [value]; it
    returns no die when [value] is not a string: a face given as a number
    matches nothing, the comparison being strict. *)
Theorem X9_getDieCount (p : panel) :
  (forall s b i,
     In i (Dice.getDieCount p (JS.Str s) (JS.Bool b))
     <-> exists e, nth_error p i = Some e /\ checked e = negb b /\ value e = s)
  /\ (forall v c, StronglySorted lt (Dice.getDieCount p v c))
  /\ (forall v c, (forall s, v <> JS.Str s) -> Dice.getDieCount p v c = []).
Proof.
  split; [| split].
  - intros s b i. rewrite getDieCount_filter, filter_In, In_filter.
    unfold has_value. split.
    + intros [(e & E & Hc) Hv]. exists e. rewrite E in Hv. simpl in Hv.
      repeat split; [exact E | exact Hc | apply String.eqb_eq, Hv].
    + intros (e & E & Hc & Hv). split; [exists e; split; assumption |].
      rewrite E. simpl. apply String.eqb_eq, Hv.
  - intros v c. rewrite getDieCount_filter.
    apply sorted_filter, filter_sorted.
  - intros v c Hv. rewrite getDieCount_filter.
    destruct (List.filter (has_value p v) (Dice.filter p c)) as [| n l] eqn:E;
      [reflexivity |].
    assert (Hn : In n (List.filter (has_value p v) (Dice.filter p c)))
      by (rewrite E; left; reflexivity).
    apply filter_In in Hn as [_ Hn]. unfold has_value in Hn.
    destruct (nth_error p n) as [e |]; [| discriminate].
    destruct v as [| b | | z | s]; try discriminate.
    exfalso. apply (Hv s). reflexivity.
Qed.

Lemma X9_getDieCount_witness :
  Dice.getDieCount p22255 (JS.Num 2) (JS.Bool true) = [].
Proof.
  apply (X9_getDieCount p22255). intros s. discriminate.
Defined.

(** ** More on the join, and the roll button *)

Lemma deliver_from_start (len : nat) (cb : bool)
    (arrivals : list (jq * JS.value)) :
  Dice.result (Dice.deliver len cb arrivals (Dice.mkJoin [] []))
  = map snd arrivals
  /\ Dice.fired (Dice.deliver len cb arrivals (Dice.mkJoin [] []))
     = if (cb && Nat.leb 1 len && Nat.leb len (length arrivals))%bool
       then [len] else [].
Proof.
  destruct (deliver_spec len cb arrivals (Dice.mkJoin [] [])) as [Hr Hf].
  rewrite Hr, Hf. cbn [Dice.result Dice.fired app length Nat.add].
  split; reflexivity.
Qed.

(** X10: whatever the roll plug-in delivers to the callbacks of one
    [rollDice] (fewer values than dice, more, in any order), [result]
    holds the values in the order they came and [callback] is called at
    most once: once if it is a function, at least one die was rolled and
    as many values have come as dice were rolled, never otherwise. *)
Theorem X10_join_fires_at_most_once (p : panel) (callback_is_function : bool)
    (arrivals : list (jq * JS.value)) :
  let r := Dice.rollDice p in
  let st := Dice.deliver (Dice.len r) callback_is_function arrivals
              (Dice.state r) in
  Dice.result st = map snd arrivals
  /\ Dice.fired st
     = (if (callback_is_function && Nat.leb 1 (Dice.len r)
            && Nat.leb (Dice.len r) (length arrivals))%bool
        then [Dice.len r] else [])
  /\ (length (Dice.fired st) <= 1)%nat.
Proof.
  intros r st.
  destruct (deliver_from_start (Dice.len r) callback_is_function arrivals)
    as [Hr Hf].
  change (Dice.state r) with (Dice.mkJoin [] []) in st.
  unfold st. rewrite Hr, Hf. repeat split.
  destruct (callback_is_function && Nat.leb 1 (Dice.len r)
            && Nat.leb (Dice.len r) (length arrivals))%bool; simpl; lia.
Qed.

Lemma filter_true_nil (p : panel) :
  (forall e, In e p -> checked e = true) -> Dice.filter p (JS.Bool true) = [].
Proof.
  intros Hall.
  destruct (Dice.filter p (JS.Bool true)) as [| n l] eqn:E; [reflexivity |].
  assert (Hn : In n (Dice.filter p (JS.Bool true))) by (rewrite E; left; reflexivity).
  apply In_filter in Hn as (e & Ee & Hc).
  rewrite (Hall e (nth_error_In _ _ Ee)) in Hc. discriminate.
Qed.

(** X11: a release that the turn log accepts disables the roll button and
    starts the roll; the button is enabled again, and loses the class
    [active], once as many values have come back as dice were rolled,
    provided at least one die was rolled.  When every die is checked no
    die is rolled and the button stays disabled whatever comes back.  A
    release that the turn log refuses starts no roll and leaves the button
    as it was, the handler of [buttonLeave] being unbound in both cases. *)
Theorem X11_release_button (p : panel) (b : Dice.button)
    (arrivals : list (jq * JS.value)) :
  let pressed := Dice.mkButton true (Dice.active b) false in
  Dice.buttonRelease true p b = (pressed, Some (Dice.rollDice p))
  /\ Dice.button_after (Dice.rollDice p) arrivals pressed
     = (if (Nat.leb 1 (Dice.len (Dice.rollDice p))
            && Nat.leb (Dice.len (Dice.rollDice p)) (length arrivals))%bool
        then Dice.mkButton false false false else pressed)
  /\ ((forall e, In e p -> checked e = true) ->
      Dice.disabled (Dice.button_after (Dice.rollDice p) arrivals pressed)
      = true)
  /\ Dice.buttonRelease false p b
     = (Dice.mkButton (Dice.disabled b) (Dice.active b) false, None).
Proof.
  intros pressed.
  assert (Hafter :
    Dice.button_after (Dice.rollDice p) arrivals pressed
    = (if (Nat.leb 1 (Dice.len (Dice.rollDice p))
           && Nat.leb (Dice.len (Dice.rollDice p)) (length arrivals))%bool
       then Dice.mkButton false false false else pressed)).
  { unfold Dice.button_after.
    change (Dice.state (Dice.rollDice p)) with (Dice.mkJoin [] []).
    rewrite (proj2 (deliver_from_start _ true arrivals)). cbn [andb].
    destruct (Nat.leb 1 (Dice.len (Dice.rollDice p))
              && Nat.leb (Dice.len (Dice.rollDice p)) (length arrivals))%bool;
      reflexivity. }
  split; [reflexivity |]. split; [exact Hafter |]. split; [| reflexivity].
  intros Hall. rewrite Hafter.
  assert (H0 : Dice.len (Dice.rollDice p) = 0%nat).
  { destruct (rollDice_pending p) as [Hp Hl].
    rewrite Hl, Hp, (filter_true_nil p Hall). reflexivity. }
  rewrite H0. reflexivity.
Qed.

Lemma X11_release_button_witness :
  Dice.disabled
    (Dice.button_after (Dice.rollDice p_all_held)
       [([0%nat], JS.Num 4)] (Dice.mkButton true true false))
  = true.
Proof.
  apply (X11_release_button p_all_held (Dice.mkButton false true true)
           [([0%nat], JS.Num 4)]).
  intros e He. vm_compute in He.
  repeat (destruct He as [<- | He]; [reflexivity |]). contradiction.
Defined.

(** X12: a press on a valid turn followed by a release that the turn log
    accepts brings the button back to rest, whatever state it was in: while
    the button is held it is [active]; once every die the release rolled
    (at least one) has delivered its value, in any order, the button is
    enabled, not [active], and no handler of [buttonLeave] is left. *)
Theorem X12_hold_release_cycle (p : panel) (b : Dice.button)
    (arrivals : list (jq * JS.value)) :
  (1 <= Dice.len (Dice.rollDice p))%nat ->
  Permutation (map fst arrivals) (Dice.pending (Dice.rollDice p)) ->
  let held := fst (Dice.buttonHold true p b) in
  let released := fst (Dice.buttonRelease true p held) in
  Dice.active held = true
  /\ Dice.disabled released = true
  /\ Dice.button_after (Dice.rollDice p) arrivals released
     = Dice.mkButton false false false.
Proof.
  intros Hn Hperm held released.
  split; [reflexivity |]. split; [reflexivity |].
  assert (Hlen : length arrivals = Dice.len (Dice.rollDice p)).
  { apply Permutation_length in Hperm. rewrite length_map in Hperm.
    rewrite Hperm. symmetry. apply rollDice_pending. }
  unfold Dice.button_after.
  change (Dice.state (Dice.rollDice p)) with (Dice.mkJoin [] []).
  rewrite (proj2 (deliver_from_start _ true arrivals)), Hlen, Nat.leb_refl.
  destruct (Nat.leb_spec 1 (Dice.len (Dice.rollDice p))); [| lia].
  reflexivity.
Qed.

Lemma X12_hold_release_cycle_witness :
  Dice.button_after (Dice.rollDice p_two_held)
    [([4%nat], JS.Num 2); ([1%nat], JS.Num 6); ([3%nat], JS.Num 6)]
    (fst (Dice.buttonRelease true p_two_held
            (fst (Dice.buttonHold true p_two_held
                    (Dice.mkButton false false false)))))
  = Dice.mkButton false false false.
Proof.
  apply (X12_hold_release_cycle p_two_held (Dice.mkButton false false false)
           [([4%nat], JS.Num 2); ([1%nat], JS.Num 6); ([3%nat], JS.Num 6)]).
  - vm_compute. lia.
  - vm_compute.
    apply (perm_trans (l' := [[1%nat]; [4%nat]; [3%nat]]));
      [apply perm_swap | apply perm_skip, perm_swap].
Defined.

(** ** Indices *)

Lemma getDieValue_nat (p : panel) (n : nat) :
  Dice.getDieValue p (Z.of_nat n)
  = match nth_error p n with
    | Some e => JS.or (JS.parseInt (JS.Str (value e))) (JS.Num 0)
    | None => JS.Num 0
    end.
Proof.
  destruct (nth_error p n) as [e |] eqn:E; [apply getDieValue_stored, E |].
  unfold Dice.getDieValue. rewrite eq_nat.
  assert (Hn : nth_error (Dice.dice p) n = None).
  { apply nth_error_None. unfold Dice.dice. rewrite length_seq.
    apply nth_error_None, E. }
  rewrite Hn. reflexivity.
Qed.

Lemma eq_out_of_range (c : jq) (index : Z) :
  Z.of_nat (length c) <= index \/ index < - Z.of_nat (length c) ->
  jQuery.eq c index = [].
Proof.
  intros H. unfold jQuery.eq.
  destruct (Z.ltb_spec index 0);
    destruct (Z.leb_spec 0 (index + Z.of_nat (length c)));
    destruct (Z.leb_spec 0 (index + 0));
    destruct (Z.ltb_spec (index + Z.of_nat (length c)) (Z.of_nat (length c)));
    destruct (Z.ltb_spec (index + 0) (Z.of_nat (length c)));
    cbn [andb]; try reflexivity; lia.
Qed.

Lemma eq_negative (c : jq) (k : Z) :
  1 <= k <= Z.of_nat (length c) ->
  jQuery.eq c (- k) = jQuery.eq c (Z.of_nat (length c) - k).
Proof.
  intros H. unfold jQuery.eq.
  destruct (Z.ltb_spec (- k) 0); [| lia].
  destruct (Z.ltb_spec (Z.of_nat (length c) - k) 0); [lia |].
  replace (- k + Z.of_nat (length c)) with (Z.of_nat (length c) - k) by lia.
  rewrite Z.add_0_r. reflexivity.
Qed.

(** X13: [getDieValue] reads a negative index from the end of the panel,
    [getDieValue(-k)] being the value of the [k]-th die from the end, and
    returns 0 for an index beyond either end. *)
Theorem X13_getDieValue_index (p : panel) (k : Z) :
  (1 <= k <= Z.of_nat (length p) ->
   Dice.getDieValue p (- k) = Dice.getDieValue p (Z.of_nat (length p) - k))
  /\ (Z.of_nat (length p) <= k \/ k < - Z.of_nat (length p) ->
      Dice.getDieValue p k = JS.Num 0).
Proof.
  unfold Dice.getDieValue.
  assert (Hl : length (Dice.dice p) = length p)
    by (unfold Dice.dice; apply length_seq).
  split; intros H.
  - rewrite <- Hl in *. rewrite (eq_negative _ k H). reflexivity.
  - rewrite <- Hl in H. rewrite (eq_out_of_range _ k H). reflexivity.
Qed.

Lemma X13_getDieValue_index_witness :
  Dice.getDieValue p12345 (- 1) = Dice.getDieValue p12345 (5 - 1)
  /\ Dice.getDieValue p12345 5 = JS.Num 0.
Proof.
  split.
  - apply (proj1 (X13_getDieValue_index p12345 1)). simpl. lia.
  - apply (proj2 (X13_getDieValue_index p12345 5)). simpl. lia.
Defined.

(** X14: [getDiceValues()] reads the first five dice of the panel and no
    other: dice past the fifth change neither the values nor the counts,
    and a panel of fewer than five dice reads 0 where a die is missing. *)
Theorem X14_first_five (p : panel) :
  Dice.getDiceValues (firstn 5 p) = Dice.getDiceValues p
  /\ Dice.getDiceCounts (firstn 5 p) = Dice.getDiceCounts p
  /\ (forall i, (length p <= i < 5)%nat ->
        nth i (Dice.getDiceValues p) JS.Undefined = JS.Num 0).
Proof.
  assert (Hv : Dice.getDiceValues (firstn 5 p) = Dice.getDiceValues p).
  { rewrite !getDiceValues_map.
    change [0; 1; 2; 3; 4] with (map Z.of_nat [0; 1; 2; 3; 4]%nat).
    rewrite !map_map. apply map_ext_in. intros n Hn.
    rewrite !getDieValue_nat, nth_error_firstn.
    destruct (Nat.ltb_spec n 5); [reflexivity |].
    simpl in Hn. lia. }
  split; [exact Hv |]. split.
  - rewrite !getDiceCounts_occ, !faces_unNum, Hv. reflexivity.
  - intros i Hi. rewrite getDiceValues_map.
    assert (Hz : forall n, (length p <= n)%nat ->
                   Dice.getDieValue p (Z.of_nat n) = JS.Num 0).
    { intros n Hn. rewrite getDieValue_nat.
      rewrite (proj2 (nth_error_None p n) Hn). reflexivity. }
    do 5 (destruct i as [| i]; [apply (Hz _ (proj1 Hi)) |]). lia.
Qed.

Lemma X14_first_five_witness :
  nth 3 (Dice.getDiceValues p_damaged) JS.Undefined = JS.Num 0.
Proof.
  apply (X14_first_five p_damaged). simpl. lia.
Defined.

(** ** The combinations in terms of the values *)

Lemma inArray_counts (p : panel) (k : Z) :
  (JS.inArray k (Dice.getDiceCounts p) >? -1) = true
  <-> exists a, 1 <= a <= 6 /\ occ a (faces p) = k.
Proof.
  rewrite inArray_In, getDiceCounts_occ, in_map_iff. split.
  - intros (a & Ha & Hin). exists a. split; [| exact Ha].
    simpl in Hin. lia.
  - intros (a & Hr & Ha). exists a. split; [exact Ha |].
    simpl. lia.
Qed.

Lemma occ_repeat (a : Z) (k : nat) : occ a (repeat a k) = Z.of_nat k.
Proof.
  induction k as [| k IH]; [reflexivity |].
  cbn [repeat occ]. rewrite Z.eqb_refl, IH. lia.
Qed.

Lemma occ_notin (a : Z) (l : list Z) : ~ In a l -> occ a l = 0.
Proof.
  intros H. pose proof (occ_nonneg a l).
  destruct (Z.eq_dec (occ a l) 0) as [E | E]; [exact E |].
  exfalso. apply H, occ_pos_In. lia.
Qed.

Lemma split_by_value (a : Z) (zs : list Z) :
  Permutation zs
    (repeat a (Z.to_nat (occ a zs))
     ++ List.filter (fun z => negb (z =? a)) zs).
Proof.
  induction zs as [| z zs IH]; [constructor |].
  cbn [occ List.filter]. pose proof (occ_nonneg a zs).
  destruct (Z.eqb_spec z a) as [-> | Hne]; cbn [negb].
  - replace (Z.to_nat (1 + occ a zs)) with (S (Z.to_nat (occ a zs))) by lia.
    cbn [repeat app]. apply perm_skip, IH.
  - rewrite Z.add_0_l. apply Permutation_cons_app, IH.
Qed.

(** [a] occurs [k] times in [zs] exactly when [zs] is, up to order, [k]
    times [a] followed by values other than [a]. *)
Lemma occ_shape (a : Z) (zs : list Z) (k : nat) :
  occ a zs = Z.of_nat k
  <-> exists rest, Permutation zs (repeat a k ++ rest) /\ ~ In a rest.
Proof.
  split.
  - intros H. exists (List.filter (fun z => negb (z =? a)) zs). split.
    + pose proof (split_by_value a zs) as Hs.
      rewrite H, Nat2Z.id in Hs. exact Hs.
    + intros Hin. apply filter_In in Hin as [_ Hin].
      rewrite Z.eqb_refl in Hin. discriminate.
  - intros (rest & Hp & Hn).
    rewrite (occ_Permutation a _ _ Hp), occ_app, occ_repeat, (occ_notin a rest Hn).
    lia.
Qed.

Lemma values_Permutation (p : panel) (l : list Z) :
  Permutation (Dice.getDiceValues p) (map JS.Num l) <-> Permutation (faces p) l.
Proof. apply is_run_faces. Qed.

(** The shape of five values among which [a] occurs [k] times. *)
Lemma faces_shape (p : panel) (a : Z) (k : nat) :
  occ a (faces p) = Z.of_nat k
  <-> exists rest, length rest = (5 - k)%nat /\ ~ In a rest
                   /\ Permutation (Dice.getDiceValues p)
                        (map JS.Num (repeat a k ++ rest)).
Proof.
  rewrite occ_shape. split.
  - intros (rest & Hp & Hn). exists rest. split; [| split; [exact Hn |]].
    + apply Permutation_length in Hp.
      rewrite faces_length, length_app, repeat_length in Hp. lia.
    + apply values_Permutation, Hp.
  - intros (rest & _ & Hn & Hp). exists rest. split; [| exact Hn].
    apply values_Permutation, Hp.
Qed.

(** X15: [isYam()] is true exactly when the five values are one and the
    same face from 1 to 6; five dice that were never rolled, all showing 0,
    are no yam. *)
Theorem X15_isYam_values (p : panel) :
  Dice.isYam p = JS.Bool true
  <-> exists a, 1 <= a <= 6
                /\ Dice.getDiceValues p = map JS.Num [a; a; a; a; a].
Proof.
  unfold Dice.isYam. split.
  - intros H. injection H as H. apply inArray_counts in H as (a & Hr & Ha).
    exists a. split; [exact Hr |].
    apply (faces_shape p a 5) in Ha as (rest & Hl & _ & Hp).
    destruct rest; [| discriminate]. cbn [repeat app map] in Hp.
    rewrite getDiceValues_faces in *. unfold faces in *. cbn [map] in *.
    assert (Hall : forall v, In v [JS.Num (face p 0); JS.Num (face p 1);
                                   JS.Num (face p 2); JS.Num (face p 3);
                                   JS.Num (face p 4)] -> v = JS.Num a).
    { intros v Hv. apply (Permutation_in _ Hp) in Hv. simpl in Hv.
      repeat (destruct Hv as [<- | Hv]; [reflexivity |]). contradiction. }
    rewrite (Hall (JS.Num (face p 0))), (Hall (JS.Num (face p 1))),
      (Hall (JS.Num (face p 2))), (Hall (JS.Num (face p 3))),
      (Hall (JS.Num (face p 4))) by (simpl; tauto).
    reflexivity.
  - intros (a & Hr & Hv). f_equal. apply inArray_counts.
    exists a. split; [exact Hr |].
    apply (faces_shape p a 5). exists []. rewrite Hv.
    repeat split; [intros [] | apply Permutation_refl].
Qed.

(** X16: a street excludes every other combination: when [isStreet()] is
    truthy, [isThreeOfaKind()], [isFourOfaKind()], [isFullhouse()] and
    [isYam()] are false, each value occurring once. *)
Theorem X16_street_excludes (p : panel) :
  JS.truthy (Dice.isStreet p) = true ->
  Dice.isThreeOfaKind p = JS.Bool false
  /\ Dice.isFourOfaKind p = JS.Bool false
  /\ Dice.isFullhouse p = JS.Bool false
  /\ Dice.isYam p = JS.Bool false
  /\ (Dice.getDiceCounts p = [1; 1; 1; 1; 1; 0]
      \/ Dice.getDiceCounts p = [0; 1; 1; 1; 1; 1]).
Proof.
  intros H.
  assert (Hc : street_condition p).
  { destruct (isStreet_number p) as (n & E & Hn & Hc). rewrite E in H.
    apply Hc. simpl in H. destruct (Z.eqb_spec n 0); [discriminate | lia]. }
  assert (Hcounts : Dice.getDiceCounts p = [1; 1; 1; 1; 1; 0]
                    \/ Dice.getDiceCounts p = [0; 1; 1; 1; 1; 1]).
  { apply street_condition_runs in Hc. rewrite !is_run_faces in Hc.
    rewrite getDiceCounts_occ.
    destruct Hc as [Hp | Hp]; [left | right]; cbn [map];
      rewrite !(fun x => occ_Permutation x _ _ Hp); reflexivity. }
  unfold Dice.isThreeOfaKind, Dice.isFourOfaKind, Dice.isFullhouse, Dice.isYam.
  destruct Hcounts as [E | E]; rewrite E; repeat split; auto.
Qed.

Lemma X16_street_excludes_witness :
  Dice.isThreeOfaKind p12345 = JS.Bool false
  /\ Dice.isFourOfaKind p12345 = JS.Bool false
  /\ Dice.isFullhouse p12345 = JS.Bool false
  /\ Dice.isYam p12345 = JS.Bool false
  /\ (Dice.getDiceCounts p12345 = [1; 1; 1; 1; 1; 0]
      \/ Dice.getDiceCounts p12345 = [0; 1; 1; 1; 1; 1]).
Proof. apply (X16_street_excludes p12345). reflexivity. Defined.

(** X17: [isFourOfaKind()] is true exactly when a face from 1 to 6 is
    shown by four dice and not by the fifth, and [isThreeOfaKind()] exactly
    when a face from 1 to 6 is shown by three dice and by neither of the
    other two (which may show the same value as each other). *)
Theorem X17_of_a_kind_values (p : panel) :
  (Dice.isFourOfaKind p = JS.Bool true
   <-> exists a c, 1 <= a <= 6 /\ c <> a
                   /\ Permutation (Dice.getDiceValues p)
                        (map JS.Num [a; a; a; a; c]))
  /\ (Dice.isThreeOfaKind p = JS.Bool true
      <-> exists a c d, 1 <= a <= 6 /\ c <> a /\ d <> a
                        /\ Permutation (Dice.getDiceValues p)
                             (map JS.Num [a; a; a; c; d])).
Proof.
  unfold Dice.isFourOfaKind, Dice.isThreeOfaKind. split; split.
  - intros H. injection H as H. apply inArray_counts in H as (a & Hr & Ha).
    apply (faces_shape p a 4) in Ha as (rest & Hl & Hn & Hp).
    destruct rest as [| c [| ? ?]]; try discriminate.
    exists a, c. repeat split; try lia; [| exact Hp].
    intros ->. apply Hn. left. reflexivity.
  - intros (a & c & Hr & Hc & Hp). f_equal. apply inArray_counts.
    exists a. split; [exact Hr |].
    apply (faces_shape p a 4). exists [c].
    repeat split; [| exact Hp]. intros [-> | []]. apply Hc. reflexivity.
  - intros H. injection H as H. apply inArray_counts in H as (a & Hr & Ha).
    apply (faces_shape p a 3) in Ha as (rest & Hl & Hn & Hp).
    destruct rest as [| c [| d [| ? ?]]]; try discriminate.
    exists a, c, d. repeat split; try lia; [| | exact Hp].
    + intros ->. apply Hn. left. reflexivity.
    + intros ->. apply Hn. right. left. reflexivity.
  - intros (a & c & d & Hr & Hc & Hd & Hp). f_equal. apply inArray_counts.
    exists a. split; [exact Hr |].
    apply (faces_shape p a 3). exists [c; d].
    repeat split; [| exact Hp].
    intros [-> | [-> | []]]; [apply Hc | apply Hd]; reflexivity.
Qed.

Lemma isFullhouse_counts (p : panel) :
  Dice.isFullhouse p = JS.Bool true
  <-> ((JS.inArray 3 (Dice.getDiceCounts p) >? -1) = true
       /\ (JS.inArray 2 (Dice.getDiceCounts p) >? -1) = true)
      \/ (JS.inArray 5 (Dice.getDiceCounts p) >? -1) = true.
Proof.
  unfold Dice.isFullhouse.
  destruct (JS.inArray 3 (Dice.getDiceCounts p) >? -1),
    (JS.inArray 2 (Dice.getDiceCounts p) >? -1),
    (JS.inArray 5 (Dice.getDiceCounts p) >? -1); simpl;
    (split; [intros H; try discriminate H; tauto
            | intros [[? ?] | ?]; try discriminate; reflexivity]).
Qed.

(** X18: [isFullhouse()] is true exactly when the five values are three
    times one face and twice another, both from 1 to 6, or five times one
    face from 1 to 6; hence a full house that is no yam is a
    three-of-a-kind and no four-of-a-kind. *)
Theorem X18_isFullhouse_values (p : panel) :
  (Dice.isFullhouse p = JS.Bool true
   <-> (exists a b, 1 <= a <= 6 /\ 1 <= b <= 6 /\ a <> b
                    /\ Permutation (Dice.getDiceValues p)
                         (map JS.Num [a; a; a; b; b]))
       \/ (exists a, 1 <= a <= 6
                     /\ Permutation (Dice.getDiceValues p)
                          (map JS.Num [a; a; a; a; a])))
  /\ (Dice.isFullhouse p = JS.Bool true -> Dice.isYam p = JS.Bool false ->
      Dice.isThreeOfaKind p = JS.Bool true
      /\ Dice.isFourOfaKind p = JS.Bool false).
Proof.
  split.
  - rewrite isFullhouse_counts, !inArray_counts. split.
    + intros [[(a & Hra & Ha) (b & Hrb & Hb)] | (a & Hr & Ha)].
      * left. exists a, b.
        assert (Hab : a <> b) by (intros ->; lia).
        repeat split; try lia.
        apply (faces_shape p a 3) in Ha as (rest & Hl & Hn & Hp).
        destruct rest as [| c [| d [| ? ?]]]; try discriminate.
        apply values_Permutation in Hp.
        rewrite (occ_Permutation b _ _ Hp) in Hb. cbn [repeat app occ] in Hb.
        destruct (Z.eqb_spec a b); [contradiction |].
        destruct (Z.eqb_spec c b), (Z.eqb_spec d b); try lia. subst c d.
        apply values_Permutation, Hp.
      * right. exists a. split; [exact Hr |].
        apply (faces_shape p a 5) in Ha as (rest & Hl & _ & Hp).
        destruct rest; [exact Hp | discriminate].
    + intros [(a & b & Hra & Hrb & Hab & Hp) | (a & Hr & Hp)].
      * apply values_Permutation in Hp. left. split; [exists a | exists b];
          (split; [assumption |]);
          rewrite (occ_Permutation _ _ _ Hp); cbn [occ];
          rewrite ?Z.eqb_refl;
          destruct (Z.eqb_spec a b); destruct (Z.eqb_spec b a); lia.
      * right. exists a. split; [exact Hr |].
        apply values_Permutation in Hp.
        rewrite (occ_Permutation _ _ _ Hp). cbn [occ].
        rewrite ?Z.eqb_refl. reflexivity.
  - intros Hf Hy. apply isFullhouse_counts in Hf.
    unfold Dice.isYam in Hy. unfold Dice.isThreeOfaKind, Dice.isFourOfaKind.
    destruct Hf as [[H3 H2] | H5].
    + rewrite H3. split; [reflexivity |]. f_equal.
      destruct (JS.inArray 4 (Dice.getDiceCounts p) >? -1) eqn:H4;
        [| reflexivity].
      rewrite (exclusive_counts p 4 3) in H3; [discriminate | lia | lia | exact H4].
    + rewrite H5 in Hy. discriminate.
Qed.

Lemma X18_isFullhouse_values_witness :
  Dice.isThreeOfaKind p22255 = JS.Bool true
  /\ Dice.isFourOfaKind p22255 = JS.Bool false.
Proof.
  apply (proj2 (X18_isFullhouse_values p22255)); reflexivity.
Defined.

(** ** Reading back a numeral *)

Lemma digits_acc (d : Decimal.uint) :
  forall acc : positive,
    JS.digits (NilEmpty.string_of_uint d) (Some (Z.pos acc))
    = Some (Z.pos (Pos.of_uint_acc d acc)).
Proof.
  induction d as [| d IH | d IH | d IH | d IH | d IH | d IH | d IH | d IH
                 | d IH | d IH]; intros acc;
    cbn [NilEmpty.string_of_uint JS.digits Pos.of_uint_acc];
    [reflexivity | ..];
    match goal with
    | |- context [JS.digit ?c] =>
        let k := eval vm_compute in (JS.digit c) in
        change (JS.digit c) with k
    end; cbv iota; rewrite <- IH; f_equal; f_equal; lia.
Qed.

Lemma digits_zero (d : Decimal.uint) :
  JS.digits (NilEmpty.string_of_uint d) (Some 0)
  = Some (Z.of_N (Pos.of_uint d)).
Proof.
  induction d as [| d IH | d IH | d IH | d IH | d IH | d IH | d IH | d IH
                 | d IH | d IH];
    cbn [NilEmpty.string_of_uint JS.digits Pos.of_uint];
    [reflexivity | ..];
    match goal with
    | |- context [JS.digit ?c] =>
        let k := eval vm_compute in (JS.digit c) in
        change (JS.digit c) with k
    end; cbv iota; cbn [Z.of_N];
    [exact IH | rewrite <- digits_acc; reflexivity ..].
Qed.

Lemma digits_none (d : Decimal.uint) :
  d <> Decimal.Nil ->
  JS.digits (NilEmpty.string_of_uint d) None
  = JS.digits (NilEmpty.string_of_uint d) (Some 0).
Proof. destruct d; [contradiction | reflexivity ..]. Qed.

Lemma parseDecimal_unsigned (d : Decimal.uint) :
  d <> Decimal.Nil ->
  JS.parseDecimal (NilEmpty.string_of_uint d)
  = match JS.digits (NilEmpty.string_of_uint d) None with
    | Some m => JS.Num (1 * m)
    | None => JS.NaN
    end.
Proof. destruct d; [contradiction | reflexivity ..]. Qed.

Lemma parseDecimal_minus (s : string) :
  JS.parseDecimal (String "-" s)
  = match JS.digits s None with
    | Some m => JS.Num (-1 * m)
    | None => JS.NaN
    end.
Proof. reflexivity. Qed.

Lemma string_of_uint_nonnil (d : Decimal.uint) :
  d <> Decimal.Nil -> NilZero.string_of_uint d = NilEmpty.string_of_uint d.
Proof. destruct d; [contradiction | reflexivity ..]. Qed.

(** [parseInt] reads back the numeral [toString] writes for a safe
    integer. *)
Lemma parseInt_toString (z : Z) :
  JS.safe z -> JS.parseInt (JS.Str (JS.toString (JS.Num z))) = JS.Num z.
Proof.
  intros _. cbn [JS.parseInt JS.toString]. destruct z as [| q | q]; [reflexivity | |];
    cbn [Z.to_int NilZero.string_of_int];
    pose proof (DecimalPos.Unsigned.to_uint_nonnil q) as Hq;
    rewrite (string_of_uint_nonnil _ Hq).
  - rewrite (parseDecimal_unsigned _ Hq), (digits_none _ Hq), digits_zero.
    rewrite DecimalPos.Unsigned.of_to. f_equal.
  - rewrite parseDecimal_minus, (digits_none _ Hq), digits_zero.
    rewrite DecimalPos.Unsigned.of_to. f_equal.
Qed.

(** X19: a die whose stored value is the decimal numeral of an integer
    [z] of at most [MAX_SAFE_INTEGER] in absolute value (what writing the
    number [z] into the input leaves there) is read by [getDieValue] as
    [z]; [getDiceValues()] then holds [z] at its index. *)
Theorem X19_getDieValue_reads_numeral (p : panel) (n : nat) (e : el) (z : Z) :
  JS.safe z ->
  nth_error p n = Some e ->
  value e = JS.toString (JS.Num z) ->
  Dice.getDieValue p (Z.of_nat n) = JS.Num z
  /\ ((n < 5)%nat -> nth n (Dice.getDiceValues p) JS.Undefined = JS.Num z).
Proof.
  intros Hs E Hv.
  assert (H : Dice.getDieValue p (Z.of_nat n) = JS.Num z).
  { rewrite (getDieValue_stored p n e E), Hv, (parseInt_toString z Hs).
    unfold JS.or. simpl. destruct (Z.eqb_spec z 0) as [-> | _]; reflexivity. }
  split; [exact H |].
  intros Hn. rewrite getDiceValues_map, <- H.
  do 5 (destruct n as [| n]; [reflexivity |]). lia.
Qed.

Lemma X19_getDieValue_reads_numeral_witness :
  JS.safe 5 /\ Dice.getDieValue p22255 (Z.of_nat 3) = JS.Num 5.
Proof.
  assert (Hs : JS.safe 5) by (unfold JS.safe, JS.MAX_SAFE_INTEGER; simpl; lia).
  split; [exact Hs |].
  apply (proj1 (X19_getDieValue_reads_numeral p22255 3 (die "5" false) 5
                  Hs eq_refl eq_refl)).
Defined.

(** ** Clicks and the next roll *)

Lemma In_pending (p : panel) (i : nat) :
  In [i] (Dice.pending (Dice.rollDice p))
  <-> exists e, nth_error p i = Some e /\ checked e = false.
Proof.
  rewrite (proj1 (rollDice_pending p)), in_map_iff. split.
  - intros (n & Hn & Hin). injection Hn as ->.
    apply In_filter in Hin. exact Hin.
  - intros H. exists i. split; [reflexivity |]. apply In_filter. exact H.
Qed.

(** X20: a click without the control and meta keys on a die decides
    whether the next [rollDice] rolls it: the die is rolled after the click
    exactly when it was checked before, and every other die is rolled
    after the click exactly when it would have been rolled before. *)
Theorem X20_click_then_roll (p : panel) (k : nat) (ek : el) :
  nth_error p k = Some ek ->
  let clicked := Dice.diceClick p (Dice.mkEvent k false false) in
  (In [k] (Dice.pending (Dice.rollDice clicked)) <-> checked ek = true)
  /\ (forall i, i <> k ->
        (In [i] (Dice.pending (Dice.rollDice clicked))
         <-> In [i] (Dice.pending (Dice.rollDice p)))).
Proof.
  intros Ek clicked.
  assert (H1 : forall i,
             nth_error clicked i
             = if Nat.eqb i k
               then option_map (fun e => mkEl (value e) (negb (checked e)))
                      (nth_error p i)
               else nth_error p i).
  { intros i. unfold clicked, Dice.diceClick.
    cbn [Dice.ctrlKey Dice.metaKey Dice.currentTarget orb].
    apply nth_error_toggleClass_single. }
  split.
  - rewrite In_pending, H1, Nat.eqb_refl, Ek. cbn [option_map]. split.
    + intros (e & E & Hc). injection E as <-. cbn [checked] in Hc.
      destruct (checked ek); [reflexivity | discriminate].
    + intros Hc. eexists. split; [reflexivity |].
      cbn [checked]. rewrite Hc. reflexivity.
  - intros i Hi. rewrite !In_pending, H1.
    rewrite (proj2 (Nat.eqb_neq i k) Hi). reflexivity.
Qed.

Lemma X20_click_then_roll_witness :
  In [0%nat]
    (Dice.pending
       (Dice.rollDice (Dice.diceClick p_two_held (Dice.mkEvent 0 false false))))
  <-> true = true.
Proof.
  apply (proj1 (X20_click_then_roll p_two_held 0 (die "3" true) eq_refl)).
Defined.
